(** * The Discord forum client of go-github-discord-bridge

    A shallow embedding of [internal/discord/client.go]: the wire data model
    (the structs with their [json] tags), the four client operations
    ([GetOrCreateRepoTag], [CreateThread], [PostMessage], [ArchiveThread])
    and the properties the specification states about them.

    The operations talk to a remote HTTP API.  Everything that the Go
    standard library or the network decides is collected in one interface,
    [Runtime]: the round trip of a request, the verdict of [net/url] on a
    URL, the text-level JSON decoder, and the escaping of a string inside a
    JSON document.  The encoding of the request structs is modelled on the
    struct tags of the source. *)

From Stdlib Require Import ZArith String Ascii DecimalString.
From stdpp Require Import base option list strings gmap.

Set Warnings "-register-all".

Open Scope Z_scope.

(** ** Go values *)

(** A Go [error] is observed through its message ([err.Error()]):
    [fmt.Errorf] builds a message, and a [%w] verb splices in the message of
    the wrapped error. *)
Definition error := string.

(** The result of a library call that returns [(T, error)] where exactly one
    of the two is meaningful. *)
Inductive result (A : Type) : Type :=
| Ok (a : A)
| Err (e : error).
Arguments Ok {A} a.
Arguments Err {A} e.

(** [%d] of an [int]: decimal digits, a leading minus sign for negatives. *)
Definition fmt_d (n : Z) : string := NilZero.string_of_int (Z.to_int n).

(** [s] occurs in [t] as a contiguous run of bytes. *)
Definition occurs_in (s t : string) : Prop :=
  exists pre post : string, t = pre +:+ s +:+ post.

(** The double-quote character, as a one-byte string. *)
Definition dquote : string := String (ascii_of_nat 34) EmptyString.

(** ** Wire data model (client.go, lines 12-82 and 237-240) *)

Definition DiscordAPIBase : string := "https://discord.com/api/v10".

Definition StatusOK : Z := 200.
Definition StatusCreated : Z := 201.

Record Client := {
  token : string;
  forumChannelID : string
}.

(** [NewClient]; the [http.Client] with its ten-second timeout lives in the
    [Runtime] below. *)
Definition NewClient (tok channel : string) : Client :=
  {| token := tok; forumChannelID := channel |}.

Record EmbedField := {
  EmbedField_Name : string;
  EmbedField_Value : string;
  EmbedField_Inline : bool
}.

Record EmbedFooter := {
  EmbedFooter_Text : string;
  EmbedFooter_IconURL : string
}.

(** [Color] is a Go [int]; the client only stores and prints it, so no
    arithmetic (and no wrap-around) is involved. *)
Record Embed := {
  Embed_Title : string;
  Embed_Description : string;
  Embed_URL : string;
  Embed_Color : Z;
  Embed_Fields : list EmbedField;
  Embed_Timestamp : string;
  Embed_Footer : option EmbedFooter
}.

Record ThreadMessage := {
  Content : string;
  Embeds : list Embed
}.

Record CreateThreadRequest := {
  CreateThreadRequest_Name : string;
  CreateThreadRequest_Message : ThreadMessage;
  AppliedTags : list string
}.

Record CreateThreadResponse := {
  CreateThreadResponse_ID : string;
  CreateThreadResponse_Name : string
}.

Record ForumTag := {
  ForumTag_ID : string;
  ForumTag_Name : string
}.

Record ForumChannelResponse := {
  AvailableTags : list ForumTag
}.

(** The function-local [PatchBody] of [GetOrCreateRepoTag]. *)
Record PatchBody := {
  PatchBody_AvailableTags : list ForumTag
}.

Record ArchiveThreadRequest := {
  Archived : bool
}.

(** ** JSON documents and the encoder *)

Inductive json : Type :=
| JNull
| JBool (b : bool)
| JNum (n : Z)
| JStr (s : string)
| JArr (items : list json)
| JObj (members : list (string * json)).

(** A struct field tagged [omitempty] is left out when it holds the zero
    value of its type; [field_omitempty] is one such member, [field] a
    member that is always written. *)
Definition field (key : string) (v : json) : list (string * json) := [(key, v)].

Definition field_omitempty (key : string) (empty : bool) (v : json)
  : list (string * json) :=
  if empty then [] else [(key, v)].

Definition is_empty_string (s : string) : bool := String.eqb s "".

Definition is_empty_list {A : Type} (l : list A) : bool :=
  match l with [] => true | _ :: _ => false end.

Definition json_of_EmbedField (f : EmbedField) : json :=
  JObj (field "name" (JStr (EmbedField_Name f))
     ++ field "value" (JStr (EmbedField_Value f))
     ++ field_omitempty "inline" (negb (EmbedField_Inline f))
          (JBool (EmbedField_Inline f))).

Definition json_of_EmbedFooter (f : EmbedFooter) : json :=
  JObj (field "text" (JStr (EmbedFooter_Text f))
     ++ field_omitempty "icon_url" (is_empty_string (EmbedFooter_IconURL f))
          (JStr (EmbedFooter_IconURL f))).

Definition json_of_Embed (e : Embed) : json :=
  JObj (field_omitempty "title" (is_empty_string (Embed_Title e))
          (JStr (Embed_Title e))
     ++ field_omitempty "description" (is_empty_string (Embed_Description e))
          (JStr (Embed_Description e))
     ++ field_omitempty "url" (is_empty_string (Embed_URL e))
          (JStr (Embed_URL e))
     ++ field_omitempty "color" (Z.eqb (Embed_Color e) 0) (JNum (Embed_Color e))
     ++ field_omitempty "fields" (is_empty_list (Embed_Fields e))
          (JArr (map json_of_EmbedField (Embed_Fields e)))
     ++ field_omitempty "timestamp" (is_empty_string (Embed_Timestamp e))
          (JStr (Embed_Timestamp e))
     ++ match Embed_Footer e with
        | None => []
        | Some f => field "footer" (json_of_EmbedFooter f)
        end).

Definition json_of_ThreadMessage (m : ThreadMessage) : json :=
  JObj (field_omitempty "content" (is_empty_string (Content m))
          (JStr (Content m))
     ++ field_omitempty "embeds" (is_empty_list (Embeds m))
          (JArr (map json_of_Embed (Embeds m)))).

Definition json_of_CreateThreadRequest (r : CreateThreadRequest) : json :=
  JObj (field "name" (JStr (CreateThreadRequest_Name r))
     ++ field "message" (json_of_ThreadMessage (CreateThreadRequest_Message r))
     ++ field_omitempty "applied_tags" (is_empty_list (AppliedTags r))
          (JArr (map JStr (AppliedTags r)))).

Definition json_of_ForumTag (t : ForumTag) : json :=
  JObj (field "id" (JStr (ForumTag_ID t))
     ++ field "name" (JStr (ForumTag_Name t))).

(** [available_tags] carries no [omitempty].  The slice marshalled by
    [GetOrCreateRepoTag] is the result of an [append] of one element, hence
    never nil, so it is always written as an array. *)
Definition json_of_PatchBody (p : PatchBody) : json :=
  JObj (field "available_tags"
          (JArr (map json_of_ForumTag (PatchBody_AvailableTags p)))).

Definition json_of_ArchiveThreadRequest (r : ArchiveThreadRequest) : json :=
  JObj (field "archived" (JBool (Archived r))).

(** The compact text of a document, as [json.Marshal] writes it: no blanks,
    members in field order.  [quote] is the encoder's rendering of a string
    value (quotes and escapes); the keys are the plain identifiers of the
    struct tags and are written between quotes as they are. *)
Section Render.

Variable quote : string -> string.

Definition sep_by (sep : string) (parts : list string) : string :=
  match parts with
  | [] => ""
  | p :: ps => fold_left (fun acc q => acc +:+ sep +:+ q) ps p
  end.

Fixpoint render (j : json) : string :=
  match j with
  | JNull => "null"
  | JBool true => "true"
  | JBool false => "false"
  | JNum n => fmt_d n
  | JStr s => quote s
  | JArr items => "[" +:+ sep_by "," (map render items) +:+ "]"
  | JObj members =>
      "{" +:+ sep_by ","
                (map (fun kv => dquote +:+ fst kv +:+ dquote +:+ ":" +:+ render (snd kv))
                     members)
          +:+ "}"
  end.

End Render.

(** Values that [json.Marshal] accepts: each struct with the document its
    tags describe. *)
Class ToJSON (T : Type) := to_json : T -> json.

#[global] Instance ToJSON_ThreadMessage : ToJSON ThreadMessage :=
  json_of_ThreadMessage.
#[global] Instance ToJSON_CreateThreadRequest : ToJSON CreateThreadRequest :=
  json_of_CreateThreadRequest.
#[global] Instance ToJSON_PatchBody : ToJSON PatchBody :=
  json_of_PatchBody.
#[global] Instance ToJSON_ArchiveThreadRequest : ToJSON ArchiveThreadRequest :=
  json_of_ArchiveThreadRequest.

(** ** HTTP messages *)

(** [http.Header] is a map from canonical header names to the values set
    for them. *)
Record Request := {
  Method : string;
  URL : string;
  Header : gmap string (list string);
  Body : option string
}.

(** A response as the client holds it: the status code, and the bytes that
    reading [resp.Body] to its end yields (the read error is dropped by
    every caller, so whatever was read is the body). *)
Record Response := {
  StatusCode : Z;
  Response_Body : string
}.

(** [req.Header.Set(key, value)]: the key's values are replaced by the one
    value.  Both keys used by the client are already in canonical form. *)
Definition Header_Set (key value : string) (req : Request) : Request :=
  {| Method := Method req;
     URL := URL req;
     Header := <[key := [value]]> (Header req);
     Body := Body req |}.

(** ** The runtime the client runs against *)

Class Runtime (World : Type) := {
  (** [net/url]'s verdict on a raw URL: [None] when it parses, the error of
      [http.NewRequest] otherwise. *)
  url_Parse_error : string -> option error;
  (** [encoding/json]'s rendering of a string value. *)
  encodeString : string -> string;
  (** [json.Unmarshal] of a body into a zero-valued struct of each of the two
      response types: the struct it fills, or its error.  A member the body
      lacks leaves its field at the zero value, so a body without an id
      decodes to a struct whose [ID] is the empty string. *)
  Unmarshal_ForumChannelResponse : string -> result ForumChannelResponse;
  Unmarshal_CreateThreadResponse : string -> result CreateThreadResponse;
  (** [c.httpClient.Do]: the remote side answers a request (or the
      transport fails) and moves to its next state. *)
  RoundTrip : Request -> World -> result Response * World
}.

(** What a computation of the client does, as seen from outside: it sends
    a request, or it reads the body of a response it holds. *)
Inductive event : Type :=
| Sent (req : Request)
| BodyRead.

(** A computation of the client: it runs from a state of the remote side,
    and yields its value, the state reached and the log of what it did, in
    order. *)
Definition IO (World A : Type) : Type := World -> A * World * list event.

Definition IO_ret {World A : Type} (a : A) : IO World A :=
  fun w => (a, w, []).

Definition IO_bind {World A B : Type} (m : IO World A) (k : A -> IO World B)
  : IO World B :=
  fun w =>
    let '(a, w1, sent1) := m w in
    let '(b, w2, sent2) := k a w1 in
    (b, w2, sent1 ++ sent2).

Declare Scope io_scope.
Delimit Scope io_scope with io.
Notation "x <- m ;; k" := (IO_bind m (fun x => k))
  (at level 100, m at next level, right associativity) : io_scope.

Definition value_of {World A : Type} (r : A * World * list event) : A :=
  fst (fst r).
Definition world_of {World A : Type} (r : A * World * list event) : World :=
  snd (fst r).
Definition log_of {World A : Type} (r : A * World * list event) : list event :=
  snd r.

(** The requests of a log, in the order they were sent. *)
Fixpoint requests (log : list event) : list Request :=
  match log with
  | [] => []
  | Sent req :: rest => req :: requests rest
  | BodyRead :: rest => requests rest
  end.

Definition sent_of {World A : Type} (r : A * World * list event)
  : list Request :=
  requests (log_of r).

Section Operations.

Context {World : Type} `{rt : Runtime World}.

Local Open Scope io_scope.

(** [http.NewRequest]: the three methods used are valid tokens, so the only
    failure is a URL that does not parse. *)
Definition http_NewRequest (method url : string) (body : option string)
  : result Request :=
  match url_Parse_error url with
  | Some err => Err err
  | None => Ok {| Method := method; URL := url; Header := ∅; Body := body |}
  end.

(** [json.Marshal] of one of the request structs.  None of them holds a
    value the encoder rejects, so it always yields the text. *)
Definition json_Marshal {T : Type} `{ToJSON T} (v : T) : result string :=
  Ok (render encodeString (to_json v)).

Definition Do (req : Request) : IO World (result Response) :=
  fun w => let (r, w') := RoundTrip req w in (r, w', [Sent req]).

(** [io.ReadAll(resp.Body)], its error dropped. *)
Definition io_ReadAll (resp : Response) : IO World string :=
  fun w => (Response_Body resp, w, [BodyRead]).

(** [fmt.Errorf(what + " (status %d): %s", status, string(body))]: the
    message for a response with an unexpected status. *)
Definition api_error (what : string) (status : Z) (body : string) : error :=
  what +:+ " (status " +:+ fmt_d status +:+ "): " +:+ body.

(** The scan [for _, tag := range tags { if tag.Name == repoName { return
    tag.ID, nil } }]: the id at the first hit, [None] when the loop falls
    through. *)
Fixpoint scan_tags (repoName : string) (tags : list ForumTag) : option string :=
  match tags with
  | [] => None
  | tag :: rest =>
      if String.eqb (ForumTag_Name tag) repoName
      then Some (ForumTag_ID tag)
      else scan_tags repoName rest
  end.

Definition GetOrCreateRepoTag (c : Client) (repoName : string)
  : IO World (string * option error) :=
  let url := DiscordAPIBase +:+ "/channels/" +:+ forumChannelID c in
  match http_NewRequest "GET" url None with
  | Err err => IO_ret ("", Some ("failed to create request: " +:+ err))
  | Ok req =>
  let req := Header_Set "Authorization" ("Bot " +:+ token c) req in
  resp <- Do req ;;
  match resp with
  | Err err => IO_ret ("", Some ("failed to get channel: " +:+ err))
  | Ok resp =>
  body <- io_ReadAll resp ;;
  if negb (Z.eqb (StatusCode resp) StatusOK)
  then IO_ret ("", Some (api_error "discord API error" (StatusCode resp) body))
  else
  match Unmarshal_ForumChannelResponse body with
  | Err err => IO_ret ("", Some ("failed to parse channel: " +:+ err))
  | Ok channel =>
  match scan_tags repoName (AvailableTags channel) with
  | Some id => IO_ret (id, None)
  | None =>
  let newTags :=
    AvailableTags channel
      ++ [ {| ForumTag_ID := ""; ForumTag_Name := repoName |} ] in
  match json_Marshal {| PatchBody_AvailableTags := newTags |} with
  | Err err => IO_ret ("", Some ("failed to marshal patch: " +:+ err))
  | Ok patchData =>
  match http_NewRequest "PATCH" url (Some patchData) with
  | Err err => IO_ret ("", Some ("failed to create patch request: " +:+ err))
  | Ok patchReq =>
  let patchReq := Header_Set "Authorization" ("Bot " +:+ token c) patchReq in
  let patchReq := Header_Set "Content-Type" "application/json" patchReq in
  patchResp <- Do patchReq ;;
  match patchResp with
  | Err err => IO_ret ("", Some ("failed to patch channel: " +:+ err))
  | Ok patchResp =>
  patchBody <- io_ReadAll patchResp ;;
  if negb (Z.eqb (StatusCode patchResp) StatusOK)
  then IO_ret ("", Some (api_error "discord API error on patch"
                           (StatusCode patchResp) patchBody))
  else
  match Unmarshal_ForumChannelResponse patchBody with
  | Err err => IO_ret ("", Some ("failed to parse updated channel: " +:+ err))
  | Ok updated =>
  match scan_tags repoName (AvailableTags updated) with
  | Some id => IO_ret (id, None)
  | None => IO_ret ("", Some "tag created but not found in response")
  end end end end end end end end end.

Definition CreateThread (c : Client) (title : string) (message : ThreadMessage)
  (tagIDs : list string) : IO World (string * option error) :=
  let url := DiscordAPIBase +:+ "/channels/" +:+ forumChannelID c +:+ "/threads" in
  let reqBody :=
    {| CreateThreadRequest_Name := title;
       CreateThreadRequest_Message := message;
       AppliedTags := tagIDs |} in
  match json_Marshal reqBody with
  | Err err => IO_ret ("", Some ("failed to marshal request: " +:+ err))
  | Ok jsonData =>
  match http_NewRequest "POST" url (Some jsonData) with
  | Err err => IO_ret ("", Some ("failed to create request: " +:+ err))
  | Ok req =>
  let req := Header_Set "Authorization" ("Bot " +:+ token c) req in
  let req := Header_Set "Content-Type" "application/json" req in
  resp <- Do req ;;
  match resp with
  | Err err => IO_ret ("", Some ("failed to send request: " +:+ err))
  | Ok resp =>
  body <- io_ReadAll resp ;;
  if negb (Z.eqb (StatusCode resp) StatusCreated)
  then IO_ret ("", Some (api_error "discord API error" (StatusCode resp) body))
  else
  match Unmarshal_CreateThreadResponse body with
  | Err err => IO_ret ("", Some ("failed to parse response: " +:+ err))
  | Ok result => IO_ret (CreateThreadResponse_ID result, None)
  end end end end.

Definition PostMessage (c : Client) (threadID : string)
  (message : ThreadMessage) : IO World (option error) :=
  let url := DiscordAPIBase +:+ "/channels/" +:+ threadID +:+ "/messages" in
  match json_Marshal message with
  | Err err => IO_ret (Some ("failed to marshal message: " +:+ err))
  | Ok jsonData =>
  match http_NewRequest "POST" url (Some jsonData) with
  | Err err => IO_ret (Some ("failed to create request: " +:+ err))
  | Ok req =>
  let req := Header_Set "Authorization" ("Bot " +:+ token c) req in
  let req := Header_Set "Content-Type" "application/json" req in
  resp <- Do req ;;
  match resp with
  | Err err => IO_ret (Some ("failed to send request: " +:+ err))
  | Ok resp =>
  if negb (Z.eqb (StatusCode resp) StatusOK)
     && negb (Z.eqb (StatusCode resp) StatusCreated)
  then
    body <- io_ReadAll resp ;;
    IO_ret (Some (api_error "discord API error" (StatusCode resp) body))
  else IO_ret None
  end end end.

Definition ArchiveThread (c : Client) (threadID : string)
  : IO World (option error) :=
  let url := DiscordAPIBase +:+ "/channels/" +:+ threadID in
  let reqBody := {| Archived := true |} in
  match json_Marshal reqBody with
  | Err err => IO_ret (Some ("failed to marshal request: " +:+ err))
  | Ok jsonData =>
  match http_NewRequest "PATCH" url (Some jsonData) with
  | Err err => IO_ret (Some ("failed to create request: " +:+ err))
  | Ok req =>
  let req := Header_Set "Authorization" ("Bot " +:+ token c) req in
  let req := Header_Set "Content-Type" "application/json" req in
  resp <- Do req ;;
  match resp with
  | Err err => IO_ret (Some ("failed to send request: " +:+ err))
  | Ok resp =>
  if negb (Z.eqb (StatusCode resp) StatusOK)
  then
    body <- io_ReadAll resp ;;
    IO_ret (Some (api_error "discord API error" (StatusCode resp) body))
  else IO_ret None
  end end end.

End Operations.

(** ** The requests of the endpoint table, written out

    These are the requests the specification's endpoint table describes,
    stated independently of the operations so that the theorems can compare
    what an operation sends with them. *)

Definition channel_url (channelID : string) : string :=
  DiscordAPIBase +:+ "/channels/" +:+ channelID.

Definition bot_header (c : Client) : list string := ["Bot " +:+ token c].

Definition json_headers (c : Client) : gmap string (list string) :=
  <["Content-Type" := ["application/json"]]>
    {["Authorization" := bot_header c]}.

Section Endpoints.

Context {World : Type} `{rt : Runtime World}.

Definition fetch_request (c : Client) : Request :=
  {| Method := "GET";
     URL := channel_url (forumChannelID c);
     Header := {["Authorization" := bot_header c]};
     Body := None |}.

Definition update_request (c : Client) (tags : list ForumTag) : Request :=
  {| Method := "PATCH";
     URL := channel_url (forumChannelID c);
     Header := json_headers c;
     Body := Some (render encodeString
                     (JObj [("available_tags",
                             JArr (map json_of_ForumTag tags))])) |}.

Definition create_request (c : Client) (title : string)
  (message : ThreadMessage) (tagIDs : list string) : Request :=
  {| Method := "POST";
     URL := channel_url (forumChannelID c) +:+ "/threads";
     Header := json_headers c;
     Body := Some (render encodeString
                     (JObj ([("name", JStr title);
                             ("message", json_of_ThreadMessage message)]
                            ++ match tagIDs with
                               | [] => []
                               | _ :: _ =>
                                   [("applied_tags", JArr (map JStr tagIDs))]
                               end))) |}.

Definition message_request (c : Client) (threadID : string)
  (message : ThreadMessage) : Request :=
  {| Method := "POST";
     URL := channel_url threadID +:+ "/messages";
     Header := json_headers c;
     Body := Some (render encodeString (json_of_ThreadMessage message)) |}.

(** The archive body is the fixed text [{"archived":true}]. *)
Definition archive_body : string :=
  "{" +:+ dquote +:+ "archived" +:+ dquote +:+ ":true}".

Definition archive_request (c : Client) (threadID : string) : Request :=
  {| Method := "PATCH";
     URL := channel_url threadID;
     Header := json_headers c;
     Body := Some archive_body |}.

(** The read phase of [GetOrCreateRepoTag] fails on this outcome of the
    fetch: the transport failed, the status is not 200, or the body does
    not decode. *)
Definition read_phase_fails (r : result Response) : Prop :=
  match r with
  | Err _ => True
  | Ok resp =>
      StatusCode resp <> 200
      \/ exists err, Unmarshal_ForumChannelResponse (Response_Body resp) = Err err
  end.

(** What every request of a client built from the token [tok] must carry:
    the bot credential, and the JSON content type exactly when there is a
    body. *)
Definition well_formed_headers (tok : string) (req : Request) : Prop :=
  Header req !! "Authorization" = Some ["Bot " +:+ tok]
  /\ match Body req with
     | Some _ => Header req !! "Content-Type" = Some ["application/json"]
     | None => Header req !! "Content-Type" = None
     end.

End Endpoints.

(** How many of the requests sent use the method [m]. *)
Definition count_method (m : string) (sent : list Request) : nat :=
  length (List.filter (fun req => String.eqb (Method req) m) sent).

(** The status code and the body as the error of an unexpected status must
    carry them: the code in decimal and the body byte for byte, both inside
    the message. *)
Definition carries (err : error) (resp : Response) : Prop :=
  occurs_in (fmt_d (StatusCode resp)) err
  /\ occurs_in (Response_Body resp) err.

(** A request stays on the API: its method is one of the three the client
    uses, and its URL is a channel path under [DiscordAPIBase]. *)
Definition stays_on_api (req : Request) : Prop :=
  (Method req = "GET" \/ Method req = "PATCH" \/ Method req = "POST")
  /\ exists rest : string, URL req = DiscordAPIBase +:+ "/channels/" +:+ rest.

(** The tag a scan settles on: the first tag of the list, in list order,
    whose name is [repoName]. *)
Definition first_named (repoName : string) (tags : list ForumTag)
  (t : ForumTag) : Prop :=
  exists pre post : list ForumTag,
    tags = pre ++ t :: post
    /\ Forall (fun x => ForumTag_Name x <> repoName) pre
    /\ ForumTag_Name t = repoName.

(** No tag of the list is named [repoName]. *)
Definition not_named (repoName : string) (tags : list ForumTag) : Prop :=
  Forall (fun x => ForumTag_Name x <> repoName) tags.

(** The tag [GetOrCreateRepoTag] appends: the name alone, the id left at
    the zero value. *)
Definition new_tag (repoName : string) : ForumTag :=
  {| ForumTag_ID := ""; ForumTag_Name := repoName |}.

(** The update document in the words of the specification (4.2, step 3):
    the existing list plus [{name: repoName}], an object with a name member
    and no id member.  It is what the specification describes, not what the
    client writes; the two are compared below. *)
Definition update_document_as_specified (tags : list ForumTag)
  (repoName : string) : json :=
  JObj [("available_tags",
         JArr (map json_of_ForumTag tags ++ [JObj [("name", JStr repoName)]]))].

(** ** A scripted remote side

    The test double of the specification's scenarios: the responses are
    played back in order, every URL parses, a string is written between
    quotes unescaped, and the decoders know the documents of the
    scenarios. *)
Module Mock.

Definition World : Type := list (result Response).

Definition quote (s : string) : string := dquote +:+ s +:+ dquote.

Definition channel_text (tags : list ForumTag) : string :=
  render quote (JObj [("available_tags", JArr (map json_of_ForumTag tags))]).

Definition thread_text (doc : json) : string := render quote doc.

Fixpoint decode_known {T : Type} (known : list (string * T)) (body : string)
  : result T :=
  match known with
  | [] => Err "unexpected end of JSON input"
  | (text, v) :: rest =>
      if String.eqb body text then Ok v else decode_known rest body
  end.

Definition tag (id name : string) : ForumTag :=
  {| ForumTag_ID := id; ForumTag_Name := name |}.

Definition known_tag_lists : list (list ForumTag) :=
  [ [];
    [tag "1" "repoA"];
    [tag "42" "repoB"];
    [tag "7" "docs"; tag "8" "repoC"; tag "9" "repoC"] ].

Definition known_channels : list (string * ForumChannelResponse) :=
  map (fun tags => (channel_text tags, {| AvailableTags := tags |}))
      known_tag_lists.

Definition known_threads : list (string * CreateThreadResponse) :=
  [ (thread_text (JObj [("id", JStr "999"); ("name", JStr "Issue #1")]),
     {| CreateThreadResponse_ID := "999";
        CreateThreadResponse_Name := "Issue #1" |});
    (thread_text (JObj [("name", JStr "Issue #1")]),
     {| CreateThreadResponse_ID := "";
        CreateThreadResponse_Name := "Issue #1" |}) ].

Definition round_trip (req : Request) (w : World) : result Response * World :=
  match w with
  | [] => (Err "EOF", [])
  | r :: rest => (r, rest)
  end.

#[global] Instance runtime : Runtime World :=
  {| url_Parse_error := fun _ => None;
     encodeString := quote;
     Unmarshal_ForumChannelResponse := decode_known known_channels;
     Unmarshal_CreateThreadResponse := decode_known known_threads;
     RoundTrip := round_trip |}.

Definition reply (status : Z) (body : string) : result Response :=
  Ok {| StatusCode := status; Response_Body := body |}.

Definition client : Client := NewClient "secret" "1234".

End Mock.

(** A remote side like the scripted one, but with [net/url]'s check that a
    raw URL holds no ASCII control byte (below 0x20, or 0x7f): such a URL is
    refused before any request exists.  Its decoder also knows the catalog
    in which the tag of repoB has no id yet. *)
Module Strict.

Definition is_CTL (a : ascii) : bool :=
  let n := nat_of_ascii a in Nat.ltb n 32 || Nat.eqb n 127.

Fixpoint stringContainsCTLByte (s : string) : bool :=
  match s with
  | EmptyString => false
  | String a rest => is_CTL a || stringContainsCTLByte rest
  end.

Definition parse_error (url : string) : option error :=
  if stringContainsCTLByte url
  then Some "net/url: invalid control character in URL"
  else None.

Definition known_channels : list (string * ForumChannelResponse) :=
  (Mock.channel_text [Mock.tag "" "repoB"],
   {| AvailableTags := [Mock.tag "" "repoB"] |})
  :: Mock.known_channels.

Definition runtime : Runtime Mock.World :=
  {| url_Parse_error := parse_error;
     encodeString := Mock.quote;
     Unmarshal_ForumChannelResponse := Mock.decode_known known_channels;
     Unmarshal_CreateThreadResponse := Mock.decode_known Mock.known_threads;
     RoundTrip := Mock.round_trip |}.

(** An id with a line feed in it. *)
Definition broken_id : string := "12" +:+ String (ascii_of_nat 10) "34".

End Strict.

(** The value of the first member of an object under a key. *)
Fixpoint member (key : string) (members : list (string * json)) : option json :=
  match members with
  | [] => None
  | (k, v) :: rest => if String.eqb k key then Some v else member key rest
  end.

Definition members_of (j : json) : list (string * json) :=
  match j with
  | JObj members => members
  | _ => []
  end.

(** ** The logger selection (pkg/applogger/applogger.go)

    [Init] builds the process-wide logger [Log] from the name of the
    environment.  The zap strategy, its options and its levels are declared
    in the logger module, outside this repository: the options are modelled
    by the fields [Init] names (a field a literal leaves out holds its zero
    value), and the levels and the constructor are parameters. *)
Module applogger.

Section Init.

Variable Level : Type.
Variables InfoLevel DebugLevel : Level.
Variable Logger : Type.

Record ZapOptions := {
  ServiceName : string;
  IsPretty : bool;
  ZapOptions_Level : Level
}.

Variable NewZapMust : ZapOptions -> Logger.

(** [Init]: the value it assigns to the package variable [Log]. *)
Definition Init (environment : string) : Logger :=
  if String.eqb environment "production"
  then NewZapMust {| ServiceName := "github-discord-bridge";
                     IsPretty := false;
                     ZapOptions_Level := InfoLevel |}
  else NewZapMust {| ServiceName := "github-discord-bridge";
                     IsPretty := true;
                     ZapOptions_Level := DebugLevel |}.

End Init.

End applogger.


(** A response with the expected status passes the status check. *)
Ltac expected_status :=
  cbn [StatusCode Response_Body];
  rewrite ?Z.eqb_refl; cbn [negb andb].

(** ** Properties *)

Lemma append_assoc (a b c : string) : (a +:+ b) +:+ c = a +:+ (b +:+ c).
Proof.
  induction a as [|x a IH]; [reflexivity|].
  change (String x ((a +:+ b) +:+ c) = String x (a +:+ b +:+ c)).
  now rewrite IH.
Qed.

Lemma append_empty_r (a : string) : a +:+ "" = a.
Proof.
  induction a as [|x a IH]; [reflexivity|].
  change (String x (a +:+ "") = String x a).
  now rewrite IH.
Qed.

Lemma occurs_in_middle (pre s post : string) : occurs_in s (pre +:+ s +:+ post).
Proof. exists pre, post. reflexivity. Qed.

Lemma occurs_in_end (pre s : string) : occurs_in s (pre +:+ s).
Proof. exists pre, "". now rewrite append_empty_r. Qed.

(** The status code and the body both occur in the message built for an
    unexpected status. *)
Lemma api_error_carries (what : string) (resp : Response) :
  carries (api_error what (StatusCode resp) (Response_Body resp)) resp.
Proof.
  unfold carries, api_error. split.
  - rewrite <- (append_assoc what " (status ").
    apply occurs_in_middle.
  - rewrite <- (append_assoc (fmt_d _)), <- (append_assoc " (status "),
      <- (append_assoc what).
    apply occurs_in_end.
Qed.

(** *** The scan *)

Lemma scan_tags_Some (repoName : string) (tags : list ForumTag) (id : string) :
  scan_tags repoName tags = Some id
  <-> exists t, first_named repoName tags t /\ id = ForumTag_ID t.
Proof.
  induction tags as [|x tags IH]; simpl.
  - split; [discriminate|].
    intros (t & (pre & post & E & _) & _). destruct pre; discriminate.
  - destruct (String.eqb_spec (ForumTag_Name x) repoName) as [Hx|Hx].
    + split.
      * intros [= <-]. exists x. split; [|reflexivity].
        exists [], tags. repeat split; [constructor | exact Hx].
      * intros (t & (pre & post & E & Hpre & Ht) & ->).
        destruct pre as [|y pre]; simpl in E.
        -- now injection E as <- _.
        -- injection E as <- _. inversion Hpre; subst. contradiction.
    + rewrite IH. split.
      * intros (t & (pre & post & E & Hpre & Ht) & ->).
        exists t. split; [|reflexivity].
        exists (x :: pre), post. subst tags.
        repeat split; [constructor; assumption | assumption].
      * intros (t & (pre & post & E & Hpre & Ht) & ->).
        exists t. split; [|reflexivity].
        destruct pre as [|y pre]; simpl in E.
        -- injection E as -> _. contradiction.
        -- injection E as <- ->. inversion Hpre; subst.
           exists pre, post. repeat split; assumption.
Qed.

Lemma scan_tags_None (repoName : string) (tags : list ForumTag) :
  scan_tags repoName tags = None <-> not_named repoName tags.
Proof.
  unfold not_named. induction tags as [|x tags IH]; simpl.
  - split; [constructor | reflexivity].
  - destruct (String.eqb_spec (ForumTag_Name x) repoName) as [Hx|Hx].
    + split; [discriminate|]. intros H. inversion H; subst. contradiction.
    + rewrite IH. split.
      * intros H. constructor; assumption.
      * intros H. now inversion H.
Qed.

(** The comparison is byte for byte: a name in another case is no hit. *)
Example scan_tags_case_sensitive :
  scan_tags "repoa" [Mock.tag "1" "repoA"] = None
  /\ scan_tags "repoA" [Mock.tag "1" "repoA"] = Some "1".
Proof. split; reflexivity. Qed.

Lemma scan_tags_first (repoName : string) (tags : list ForumTag) (t : ForumTag) :
  first_named repoName tags t ->
  scan_tags repoName tags = Some (ForumTag_ID t).
Proof. intros H. apply scan_tags_Some. eauto. Qed.

(** A list that holds a tag of the name has a first one. *)
Lemma first_named_exists (repoName : string) (tags : list ForumTag)
  (tag : ForumTag) :
  tag ∈ tags -> ForumTag_Name tag = repoName ->
  exists t, first_named repoName tags t.
Proof.
  intros Hin Hname.
  destruct (scan_tags repoName tags) as [id|] eqn:E.
  - apply scan_tags_Some in E as (t & Ht & _). eauto.
  - apply scan_tags_None in E. unfold not_named in E.
    rewrite Forall_forall in E. now apply E in Hin.
Qed.

(** Where names are unique, the first tag of a name is the only one. *)
Lemma first_named_only (repoName : string) (tags : list ForumTag)
  (t tag : ForumTag) :
  NoDup (map ForumTag_Name tags) ->
  first_named repoName tags t ->
  tag ∈ tags -> ForumTag_Name tag = repoName -> t = tag.
Proof.
  intros Hnd (pre & post & -> & Hpre & Ht) Hin Hname.
  rewrite map_app in Hnd. simpl in Hnd.
  apply NoDup_app in Hnd as (_ & _ & Hnd).
  apply NoDup_cons in Hnd as [Hnotin _].
  apply elem_of_app in Hin as [Hin|Hin].
  - rewrite Forall_forall in Hpre. now apply Hpre in Hin.
  - apply elem_of_cons in Hin as [->|Hin]; [reflexivity|].
    exfalso. apply Hnotin. rewrite Ht, <- Hname.
    now apply list_elem_of_fmap_2.
Qed.

Section Properties.

Context {World : Type} `{rt : Runtime World}.

(** *** The operations, one round trip at a time

    An operation first builds its request.  When [net/url] rejects the URL
    (a channel or thread id that no URL can hold), nothing is sent and the
    construction error is returned: the [_bad_url] lemmas.  Otherwise the
    request is sent, and the [_run] lemmas follow the operation through its
    round trips.  The properties below are about this second case, in which
    the remote side is reached. *)

Lemma GetOrCreateRepoTag_bad_url (c : Client) (repoName : string) (w : World)
  (err : error) :
  url_Parse_error (channel_url (forumChannelID c)) = Some err ->
  GetOrCreateRepoTag c repoName w
  = (("", Some ("failed to create request: " +:+ err)), w, []).
Proof.
  intros Hurl. unfold GetOrCreateRepoTag, http_NewRequest.
  fold (channel_url (forumChannelID c)). now rewrite Hurl.
Qed.

(** After the fetch: the scan of the fetched tags, and the update when the
    scan falls through. *)
Lemma GetOrCreateRepoTag_run (c : Client) (repoName : string) (w : World) :
  url_Parse_error (channel_url (forumChannelID c)) = None ->
  GetOrCreateRepoTag c repoName w
  = let fetch := fetch_request c in
    let (r, w1) := RoundTrip fetch w in
    match r with
    | Err err =>
        (("", Some ("failed to get channel: " +:+ err)), w1, [Sent fetch])
    | Ok resp =>
      if negb (Z.eqb (StatusCode resp) 200)
      then (("", Some (api_error "discord API error" (StatusCode resp)
                         (Response_Body resp))),
            w1, [Sent fetch; BodyRead])
      else
      match Unmarshal_ForumChannelResponse (Response_Body resp) with
      | Err err =>
          (("", Some ("failed to parse channel: " +:+ err)), w1,
           [Sent fetch; BodyRead])
      | Ok channel =>
      match scan_tags repoName (AvailableTags channel) with
      | Some id => ((id, None), w1, [Sent fetch; BodyRead])
      | None =>
        let update :=
          update_request c (AvailableTags channel ++ [new_tag repoName]) in
        let (r2, w2) := RoundTrip update w1 in
        match r2 with
        | Err err =>
            (("", Some ("failed to patch channel: " +:+ err)), w2,
             [Sent fetch; BodyRead; Sent update])
        | Ok resp2 =>
          if negb (Z.eqb (StatusCode resp2) 200)
          then (("", Some (api_error "discord API error on patch"
                             (StatusCode resp2) (Response_Body resp2))),
                w2, [Sent fetch; BodyRead; Sent update; BodyRead])
          else
          match Unmarshal_ForumChannelResponse (Response_Body resp2) with
          | Err err =>
              (("", Some ("failed to parse updated channel: " +:+ err)), w2,
               [Sent fetch; BodyRead; Sent update; BodyRead])
          | Ok updated =>
          match scan_tags repoName (AvailableTags updated) with
          | Some id =>
              ((id, None), w2, [Sent fetch; BodyRead; Sent update; BodyRead])
          | None =>
              (("", Some "tag created but not found in response"), w2,
               [Sent fetch; BodyRead; Sent update; BodyRead])
          end end end end end end.
Proof.
  intros Hurl. unfold GetOrCreateRepoTag, http_NewRequest, json_Marshal.
  fold (channel_url (forumChannelID c)). rewrite Hurl.
  change (Header_Set "Authorization" ("Bot " +:+ token c)
            {| Method := "GET"; URL := channel_url (forumChannelID c);
               Header := ∅; Body := None |})
    with (fetch_request c).
  cbv zeta. unfold IO_bind at 1. unfold Do at 1.
  destruct (RoundTrip (fetch_request c) w) as [[resp|err] w1];
    [|reflexivity].
  unfold IO_bind at 1. unfold io_ReadAll at 1.
  fold StatusOK.
  destruct (negb (StatusCode resp =? StatusOK)%Z); [reflexivity|].
  destruct (Unmarshal_ForumChannelResponse (Response_Body resp))
    as [channel|err]; [|reflexivity].
  destruct (scan_tags repoName (AvailableTags channel)) as [id|];
    [reflexivity|].
  change (Header_Set "Content-Type" "application/json"
            (Header_Set "Authorization" ("Bot " +:+ token c) _))
    with (update_request c (AvailableTags channel ++ [new_tag repoName])).
  unfold IO_bind, Do.
  destruct (RoundTrip (update_request c _) w1) as [[resp2|err] w2];
    [|reflexivity].
  unfold io_ReadAll.
  destruct (negb (StatusCode resp2 =? StatusOK)%Z); [reflexivity|].
  destruct (Unmarshal_ForumChannelResponse (Response_Body resp2))
    as [updated|err]; [|reflexivity].
  destruct (scan_tags repoName (AvailableTags updated)); reflexivity.
Qed.

Lemma CreateThread_bad_url (c : Client) (title : string)
  (message : ThreadMessage) (tagIDs : list string) (w : World) (err : error) :
  url_Parse_error (channel_url (forumChannelID c) +:+ "/threads") = Some err ->
  CreateThread c title message tagIDs w
  = (("", Some ("failed to create request: " +:+ err)), w, []).
Proof.
  intros Hurl. unfold CreateThread, http_NewRequest, json_Marshal.
  unfold channel_url in Hurl. rewrite append_assoc, append_assoc in Hurl.
  cbv zeta. now rewrite Hurl.
Qed.

Lemma CreateThread_run (c : Client) (title : string) (message : ThreadMessage)
  (tagIDs : list string) (w : World) :
  url_Parse_error (channel_url (forumChannelID c) +:+ "/threads") = None ->
  CreateThread c title message tagIDs w
  = let create := create_request c title message tagIDs in
    let (r, w1) := RoundTrip create w in
    match r with
    | Err err =>
        (("", Some ("failed to send request: " +:+ err)), w1, [Sent create])
    | Ok resp =>
      if negb (Z.eqb (StatusCode resp) 201)
      then (("", Some (api_error "discord API error" (StatusCode resp)
                         (Response_Body resp))),
            w1, [Sent create; BodyRead])
      else
      match Unmarshal_CreateThreadResponse (Response_Body resp) with
      | Err err =>
          (("", Some ("failed to parse response: " +:+ err)), w1,
           [Sent create; BodyRead])
      | Ok result =>
          ((CreateThreadResponse_ID result, None), w1,
           [Sent create; BodyRead])
      end
    end.
Proof.
  intros Hurl. unfold CreateThread, http_NewRequest, json_Marshal.
  unfold channel_url in Hurl. rewrite append_assoc, append_assoc in Hurl.
  cbv zeta. rewrite Hurl.
  assert (Hreq :
    Header_Set "Content-Type" "application/json"
      (Header_Set "Authorization" ("Bot " +:+ token c)
         {| Method := "POST";
            URL := DiscordAPIBase +:+ "/channels/" +:+ forumChannelID c
                     +:+ "/threads";
            Header := ∅;
            Body := Some (render encodeString
                            (to_json
                               {| CreateThreadRequest_Name := title;
                                  CreateThreadRequest_Message := message;
                                  AppliedTags := tagIDs |})) |})
    = create_request c title message tagIDs).
  { unfold create_request, channel_url, Header_Set; cbn.
    rewrite append_assoc, append_assoc.
    destruct tagIDs; reflexivity. }
  rewrite Hreq. unfold IO_bind, Do.
  destruct (RoundTrip (create_request c title message tagIDs) w)
    as [[resp|err] w1]; [|reflexivity].
  unfold io_ReadAll. fold StatusCreated.
  destruct (negb (StatusCode resp =? StatusCreated)%Z); [reflexivity|].
  destruct (Unmarshal_CreateThreadResponse (Response_Body resp));
    reflexivity.
Qed.

Lemma PostMessage_bad_url (c : Client) (threadID : string)
  (message : ThreadMessage) (w : World) (err : error) :
  url_Parse_error (channel_url threadID +:+ "/messages") = Some err ->
  PostMessage c threadID message w
  = (Some ("failed to create request: " +:+ err), w, []).
Proof.
  intros Hurl. unfold PostMessage, http_NewRequest, json_Marshal.
  unfold channel_url in Hurl. rewrite append_assoc, append_assoc in Hurl.
  cbv zeta. now rewrite Hurl.
Qed.

Lemma PostMessage_run (c : Client) (threadID : string)
  (message : ThreadMessage) (w : World) :
  url_Parse_error (channel_url threadID +:+ "/messages") = None ->
  PostMessage c threadID message w
  = let post := message_request c threadID message in
    let (r, w1) := RoundTrip post w in
    match r with
    | Err err => (Some ("failed to send request: " +:+ err), w1, [Sent post])
    | Ok resp =>
      if negb (Z.eqb (StatusCode resp) 200)
         && negb (Z.eqb (StatusCode resp) 201)
      then (Some (api_error "discord API error" (StatusCode resp)
                    (Response_Body resp)),
            w1, [Sent post; BodyRead])
      else (None, w1, [Sent post])
    end.
Proof.
  intros Hurl. unfold PostMessage, http_NewRequest, json_Marshal.
  unfold channel_url in Hurl. rewrite append_assoc, append_assoc in Hurl.
  cbv zeta. rewrite Hurl.
  assert (Hreq :
    Header_Set "Content-Type" "application/json"
      (Header_Set "Authorization" ("Bot " +:+ token c)
         {| Method := "POST";
            URL := DiscordAPIBase +:+ "/channels/" +:+ threadID
                     +:+ "/messages";
            Header := ∅;
            Body := Some (render encodeString (to_json message)) |})
    = message_request c threadID message).
  { unfold message_request, channel_url, Header_Set; cbn.
    now rewrite append_assoc, append_assoc. }
  rewrite Hreq. unfold IO_bind at 1. unfold Do.
  destruct (RoundTrip (message_request c threadID message) w)
    as [[resp|err] w1]; [|reflexivity].
  fold StatusOK StatusCreated.
  destruct (negb (StatusCode resp =? StatusOK)%Z
            && negb (StatusCode resp =? StatusCreated)%Z); reflexivity.
Qed.

Lemma ArchiveThread_bad_url (c : Client) (threadID : string) (w : World)
  (err : error) :
  url_Parse_error (channel_url threadID) = Some err ->
  ArchiveThread c threadID w
  = (Some ("failed to create request: " +:+ err), w, []).
Proof.
  intros Hurl. unfold ArchiveThread, http_NewRequest, json_Marshal.
  fold (channel_url threadID). cbv zeta. now rewrite Hurl.
Qed.

Lemma ArchiveThread_run (c : Client) (threadID : string) (w : World) :
  url_Parse_error (channel_url threadID) = None ->
  ArchiveThread c threadID w
  = let archive := archive_request c threadID in
    let (r, w1) := RoundTrip archive w in
    match r with
    | Err err =>
        (Some ("failed to send request: " +:+ err), w1, [Sent archive])
    | Ok resp =>
      if negb (Z.eqb (StatusCode resp) 200)
      then (Some (api_error "discord API error" (StatusCode resp)
                    (Response_Body resp)),
            w1, [Sent archive; BodyRead])
      else (None, w1, [Sent archive])
    end.
Proof.
  intros Hurl. unfold ArchiveThread, http_NewRequest, json_Marshal.
  fold (channel_url threadID). cbv zeta. rewrite Hurl.
  change (Header_Set "Content-Type" "application/json"
            (Header_Set "Authorization" ("Bot " +:+ token c) _))
    with (archive_request c threadID).
  unfold IO_bind at 1. unfold Do.
  destruct (RoundTrip (archive_request c threadID) w) as [[resp|err] w1];
    [|reflexivity].
  fold StatusOK.
  destruct (negb (StatusCode resp =? StatusOK)%Z); reflexivity.
Qed.

(** *** Headers of the endpoint requests *)

Lemma json_headers_Authorization (c : Client) :
  json_headers c !! "Authorization" = Some ["Bot " +:+ token c].
Proof.
  unfold json_headers, bot_header.
  rewrite lookup_insert_ne by discriminate.
  apply lookup_singleton_eq.
Qed.

Lemma json_headers_Content_Type (c : Client) :
  json_headers c !! "Content-Type" = Some ["application/json"].
Proof. unfold json_headers. apply lookup_insert_eq. Qed.

Lemma fetch_request_well_formed (c : Client) :
  well_formed_headers (token c) (fetch_request c).
Proof.
  split; cbn.
  - apply lookup_singleton_eq.
  - apply lookup_singleton_ne. discriminate.
Qed.

Lemma update_request_well_formed (c : Client) (tags : list ForumTag) :
  well_formed_headers (token c) (update_request c tags).
Proof.
  split; [apply json_headers_Authorization | apply json_headers_Content_Type].
Qed.

Lemma create_request_well_formed (c : Client) (title : string)
  (message : ThreadMessage) (tagIDs : list string) :
  well_formed_headers (token c) (create_request c title message tagIDs).
Proof.
  split; [apply json_headers_Authorization | apply json_headers_Content_Type].
Qed.

Lemma message_request_well_formed (c : Client) (threadID : string)
  (message : ThreadMessage) :
  well_formed_headers (token c) (message_request c threadID message).
Proof.
  split; [apply json_headers_Authorization | apply json_headers_Content_Type].
Qed.

Lemma archive_request_well_formed (c : Client) (threadID : string) :
  well_formed_headers (token c) (archive_request c threadID).
Proof.
  split; [apply json_headers_Authorization | apply json_headers_Content_Type].
Qed.

(** *** Tag reconciliation *)

(** C1. When the fetched channel holds a tag named [repoName] (compared
    byte for byte), [GetOrCreateRepoTag] sends the one GET and no PATCH, and
    returns, without error, the id of the tag of that name: the first one in
    list order, which is the given tag whenever names are unique. *)
Theorem existing_tag_fast_path (c : Client) (repoName body : string)
  (channel : ForumChannelResponse) (tag : ForumTag) (w w1 : World) :
  url_Parse_error (channel_url (forumChannelID c)) = None ->
  RoundTrip (fetch_request c) w
    = (Ok {| StatusCode := 200; Response_Body := body |}, w1) ->
  Unmarshal_ForumChannelResponse body = Ok channel ->
  tag ∈ AvailableTags channel ->
  ForumTag_Name tag = repoName ->
  exists t : ForumTag,
    first_named repoName (AvailableTags channel) t
    /\ (NoDup (map ForumTag_Name (AvailableTags channel)) -> t = tag)
    /\ GetOrCreateRepoTag c repoName w
       = ((ForumTag_ID t, None), w1, [Sent (fetch_request c); BodyRead])
    /\ count_method "GET" (sent_of (GetOrCreateRepoTag c repoName w)) = 1%nat
    /\ count_method "PATCH" (sent_of (GetOrCreateRepoTag c repoName w)) = 0%nat.
Proof.
  intros Hurl Hfetch Hbody Hin Hname.
  destruct (first_named_exists repoName _ tag Hin Hname) as [t Ht].
  assert (Hrun : GetOrCreateRepoTag c repoName w
                 = ((ForumTag_ID t, None), w1,
                    [Sent (fetch_request c); BodyRead])).
  { rewrite GetOrCreateRepoTag_run by assumption. cbv zeta.
    rewrite Hfetch. expected_status. rewrite Hbody.
    now rewrite (scan_tags_first _ _ _ Ht). }
  exists t. split; [exact Ht|]. split.
  - intros Hnd. eapply first_named_only; eassumption.
  - rewrite Hrun. repeat split.
Qed.

(** C2, as amended.  When the fetched channel holds no tag named
    [repoName], [GetOrCreateRepoTag] sends the GET and then one PATCH whose
    body is the document [{available_tags: tags}] for the fetched tags
    followed by the object [{id: "", name: repoName}]: the new tag is
    written with an id member that holds the empty string, because the [id]
    field of [ForumTag] carries no [omitempty].  When the PATCH is answered
    with status 200 and a channel holding a tag of that name, the id of that
    tag in the answer is returned. *)
Theorem absent_tag_is_created (c : Client) (repoName body : string)
  (channel : ForumChannelResponse) (w w1 : World) :
  url_Parse_error (channel_url (forumChannelID c)) = None ->
  RoundTrip (fetch_request c) w
    = (Ok {| StatusCode := 200; Response_Body := body |}, w1) ->
  Unmarshal_ForumChannelResponse body = Ok channel ->
  not_named repoName (AvailableTags channel) ->
  sent_of (GetOrCreateRepoTag c repoName w)
    = [fetch_request c;
       update_request c (AvailableTags channel ++ [new_tag repoName])]
  /\ count_method "GET" (sent_of (GetOrCreateRepoTag c repoName w)) = 1%nat
  /\ count_method "PATCH" (sent_of (GetOrCreateRepoTag c repoName w)) = 1%nat
  /\ Body (update_request c (AvailableTags channel ++ [new_tag repoName]))
     = Some (render encodeString
               (JObj [("available_tags",
                       JArr (map json_of_ForumTag (AvailableTags channel)
                             ++ [JObj [("id", JStr "");
                                       ("name", JStr repoName)]]))]))
  /\ forall (body2 : string) (updated : ForumChannelResponse)
        (tag : ForumTag) (w2 : World),
      RoundTrip
        (update_request c (AvailableTags channel ++ [new_tag repoName])) w1
        = (Ok {| StatusCode := 200; Response_Body := body2 |}, w2) ->
      Unmarshal_ForumChannelResponse body2 = Ok updated ->
      tag ∈ AvailableTags updated ->
      ForumTag_Name tag = repoName ->
      exists t : ForumTag,
        first_named repoName (AvailableTags updated) t
        /\ (NoDup (map ForumTag_Name (AvailableTags updated)) -> t = tag)
        /\ GetOrCreateRepoTag c repoName w
           = ((ForumTag_ID t, None), w2,
              [Sent (fetch_request c); BodyRead;
               Sent (update_request c
                       (AvailableTags channel ++ [new_tag repoName]));
               BodyRead]).
Proof.
  intros Hurl Hfetch Hbody Habsent.
  apply scan_tags_None in Habsent.
  assert (Hsent : sent_of (GetOrCreateRepoTag c repoName w)
    = [fetch_request c;
       update_request c (AvailableTags channel ++ [new_tag repoName])]).
  { rewrite GetOrCreateRepoTag_run by assumption. cbv zeta.
    rewrite Hfetch. expected_status. rewrite Hbody, Habsent.
    destruct (RoundTrip _ w1) as [[resp2|err] w2]; [|reflexivity].
    destruct (negb (StatusCode resp2 =? 200)%Z); [reflexivity|].
    destruct (Unmarshal_ForumChannelResponse (Response_Body resp2))
      as [updated|err]; [|reflexivity].
    destruct (scan_tags repoName (AvailableTags updated)); reflexivity. }
  split; [exact Hsent|]. rewrite Hsent.
  split; [reflexivity|]. split; [reflexivity|]. split.
  - cbn [update_request Body]. now rewrite map_app.
  - intros body2 updated tag w2 Hupdate Hbody2 Hin Hname.
    destruct (first_named_exists repoName _ tag Hin Hname) as [t Ht].
    exists t. split; [exact Ht|]. split.
    + intros Hnd. eapply first_named_only; eassumption.
    + rewrite GetOrCreateRepoTag_run by assumption. cbv zeta.
      rewrite Hfetch. expected_status.
      rewrite Hbody, Habsent, Hupdate. expected_status.
      rewrite Hbody2. now rewrite (scan_tags_first _ _ _ Ht).
Qed.

(** C3. When the update is answered with status 200 and a channel that
    decodes but holds no tag named [repoName], [GetOrCreateRepoTag] returns
    the empty id together with the error "tag created but not found in
    response". *)
Theorem created_tag_missing_from_response (c : Client)
  (repoName body body2 : string) (channel updated : ForumChannelResponse)
  (w w1 w2 : World) :
  url_Parse_error (channel_url (forumChannelID c)) = None ->
  RoundTrip (fetch_request c) w
    = (Ok {| StatusCode := 200; Response_Body := body |}, w1) ->
  Unmarshal_ForumChannelResponse body = Ok channel ->
  not_named repoName (AvailableTags channel) ->
  RoundTrip (update_request c (AvailableTags channel ++ [new_tag repoName])) w1
    = (Ok {| StatusCode := 200; Response_Body := body2 |}, w2) ->
  Unmarshal_ForumChannelResponse body2 = Ok updated ->
  not_named repoName (AvailableTags updated) ->
  GetOrCreateRepoTag c repoName w
  = (("", Some "tag created but not found in response"), w2,
     [Sent (fetch_request c); BodyRead;
      Sent (update_request c (AvailableTags channel ++ [new_tag repoName]));
      BodyRead]).
Proof.
  intros Hurl Hfetch Hbody Habsent Hupdate Hbody2 Hmissing.
  apply scan_tags_None in Habsent, Hmissing.
  rewrite GetOrCreateRepoTag_run by assumption. cbv zeta.
  rewrite Hfetch. expected_status.
  rewrite Hbody, Habsent, Hupdate. expected_status.
  now rewrite Hbody2, Hmissing.
Qed.

(** C8. When the read phase fails (the fetch fails in transport, is
    answered with a status other than 200, or its body does not decode),
    [GetOrCreateRepoTag] returns the empty id with an error, the GET is the
    only request it sent (no PATCH), and the remote side is left in the state
    the GET left it in. *)
Theorem failed_fetch_sends_no_update (c : Client) (repoName : string)
  (r : result Response) (w w1 : World) :
  url_Parse_error (channel_url (forumChannelID c)) = None ->
  RoundTrip (fetch_request c) w = (r, w1) ->
  read_phase_fails r ->
  exists err : error,
    value_of (GetOrCreateRepoTag c repoName w) = ("", Some err)
    /\ world_of (GetOrCreateRepoTag c repoName w) = w1
    /\ sent_of (GetOrCreateRepoTag c repoName w) = [fetch_request c]
    /\ count_method "PATCH" (sent_of (GetOrCreateRepoTag c repoName w)) = 0%nat.
Proof.
  intros Hurl Hfetch Hfails.
  rewrite GetOrCreateRepoTag_run by assumption. cbv zeta. rewrite Hfetch.
  destruct r as [resp|err]; [|eexists; repeat split].
  destruct Hfails as [Hstatus|[err Herr]].
  - apply Z.eqb_neq in Hstatus. rewrite Hstatus. cbn [negb].
    eexists; repeat split.
  - destruct (negb (StatusCode resp =? 200)%Z); [eexists; repeat split|].
    rewrite Herr. eexists; repeat split.
Qed.

(** C10. With several tags of the name [repoName] in a list, the scan
    settles on the first of them in list order: in the scan of the fetched
    tags, and in the scan of the tags of the update's answer. *)
Theorem first_duplicate_wins (c : Client) (repoName body : string)
  (channel : ForumChannelResponse) (w w1 : World) :
  url_Parse_error (channel_url (forumChannelID c)) = None ->
  RoundTrip (fetch_request c) w
    = (Ok {| StatusCode := 200; Response_Body := body |}, w1) ->
  Unmarshal_ForumChannelResponse body = Ok channel ->
  (forall (pre post : list ForumTag) (t : ForumTag),
      AvailableTags channel = pre ++ t :: post ->
      not_named repoName pre ->
      ForumTag_Name t = repoName ->
      GetOrCreateRepoTag c repoName w
      = ((ForumTag_ID t, None), w1, [Sent (fetch_request c); BodyRead]))
  /\ (forall (body2 : string) (updated : ForumChannelResponse) (w2 : World)
         (pre post : list ForumTag) (t : ForumTag),
      not_named repoName (AvailableTags channel) ->
      RoundTrip
        (update_request c (AvailableTags channel ++ [new_tag repoName])) w1
        = (Ok {| StatusCode := 200; Response_Body := body2 |}, w2) ->
      Unmarshal_ForumChannelResponse body2 = Ok updated ->
      AvailableTags updated = pre ++ t :: post ->
      not_named repoName pre ->
      ForumTag_Name t = repoName ->
      GetOrCreateRepoTag c repoName w
      = ((ForumTag_ID t, None), w2,
         [Sent (fetch_request c); BodyRead;
          Sent (update_request c
                  (AvailableTags channel ++ [new_tag repoName]));
          BodyRead])).
Proof.
  intros Hurl Hfetch Hbody. split.
  - intros pre post t Htags Hpre Ht.
    assert (Hfirst : first_named repoName (AvailableTags channel) t)
      by (exists pre, post; auto).
    rewrite GetOrCreateRepoTag_run by assumption. cbv zeta.
    rewrite Hfetch. expected_status. rewrite Hbody.
    now rewrite (scan_tags_first _ _ _ Hfirst).
  - intros body2 updated w2 pre post t Habsent Hupdate Hbody2 Htags Hpre Ht.
    assert (Hfirst : first_named repoName (AvailableTags updated) t)
      by (exists pre, post; auto).
    apply scan_tags_None in Habsent.
    rewrite GetOrCreateRepoTag_run by assumption. cbv zeta.
    rewrite Hfetch. expected_status.
    rewrite Hbody, Habsent, Hupdate. expected_status.
    rewrite Hbody2. now rewrite (scan_tags_first _ _ _ Hfirst).
Qed.

(** *** Thread lifecycle *)

(** C4. [CreateThread] returns the id decoded from the body of a 201
    answer; on any other status it returns the empty id and an error whose
    message holds the status code in decimal and the body as received. *)
Theorem CreateThread_status (c : Client) (title : string)
  (message : ThreadMessage) (tagIDs : list string) (resp : Response)
  (w w1 : World) :
  url_Parse_error (channel_url (forumChannelID c) +:+ "/threads") = None ->
  RoundTrip (create_request c title message tagIDs) w = (Ok resp, w1) ->
  (StatusCode resp = 201 ->
   forall result : CreateThreadResponse,
     Unmarshal_CreateThreadResponse (Response_Body resp) = Ok result ->
     CreateThread c title message tagIDs w
     = ((CreateThreadResponse_ID result, None), w1,
        [Sent (create_request c title message tagIDs); BodyRead]))
  /\ (StatusCode resp <> 201 ->
      exists err : error,
        CreateThread c title message tagIDs w
        = (("", Some err), w1,
           [Sent (create_request c title message tagIDs); BodyRead])
        /\ carries err resp).
Proof.
  intros Hurl Hsend.
  rewrite CreateThread_run by assumption. cbv zeta. rewrite Hsend. split.
  - intros Hstatus result Hbody. rewrite Hstatus. expected_status.
    now rewrite Hbody.
  - intros Hstatus. apply Z.eqb_neq in Hstatus. rewrite Hstatus. cbn [negb].
    eexists. split; [reflexivity | apply api_error_carries].
Qed.

(** C9. A 201 answer whose body decodes to a thread with no id (the id
    field is missing or empty, so the decoded [ID] is the empty string)
    makes [CreateThread] return the empty id with no error. *)
Theorem CreateThread_empty_id_not_checked (c : Client) (title body : string)
  (message : ThreadMessage) (tagIDs : list string)
  (result : CreateThreadResponse) (w w1 : World) :
  url_Parse_error (channel_url (forumChannelID c) +:+ "/threads") = None ->
  RoundTrip (create_request c title message tagIDs) w
    = (Ok {| StatusCode := 201; Response_Body := body |}, w1) ->
  Unmarshal_CreateThreadResponse body = Ok result ->
  CreateThreadResponse_ID result = "" ->
  CreateThread c title message tagIDs w
  = (("", None), w1, [Sent (create_request c title message tagIDs); BodyRead]).
Proof.
  intros Hurl Hsend Hbody Hid.
  rewrite CreateThread_run by assumption. cbv zeta. rewrite Hsend.
  expected_status. now rewrite Hbody, Hid.
Qed.

(** C5. [PostMessage] returns no error exactly when the status is 200 or
    201, and then it has not read the body of the answer; on any other
    status it returns an error whose message holds the status code and the
    body. *)
Theorem PostMessage_status (c : Client) (threadID : string)
  (message : ThreadMessage) (resp : Response) (w w1 : World) :
  url_Parse_error (channel_url threadID +:+ "/messages") = None ->
  RoundTrip (message_request c threadID message) w = (Ok resp, w1) ->
  (value_of (PostMessage c threadID message w) = None
   <-> StatusCode resp = 200 \/ StatusCode resp = 201)
  /\ (StatusCode resp = 200 \/ StatusCode resp = 201 ->
      PostMessage c threadID message w
      = (None, w1, [Sent (message_request c threadID message)]))
  /\ (~ (StatusCode resp = 200 \/ StatusCode resp = 201) ->
      exists err : error,
        PostMessage c threadID message w
        = (Some err, w1, [Sent (message_request c threadID message); BodyRead])
        /\ carries err resp).
Proof.
  intros Hurl Hsend.
  rewrite PostMessage_run by assumption. cbv zeta. rewrite Hsend.
  destruct (Z.eqb_spec (StatusCode resp) 200) as [H200|H200];
    destruct (Z.eqb_spec (StatusCode resp) 201) as [H201|H201];
    cbn [negb andb value_of fst].
  all: repeat split; try tauto; try discriminate.
  intros _. eexists. split; [reflexivity | apply api_error_carries].
Qed.

(** C6. [ArchiveThread] sends one PATCH whose body is the document
    [{archived: true}], returns no error exactly when the status is 200, and
    on any other status returns an error whose message holds the status code
    and the body. *)
Theorem ArchiveThread_status (c : Client) (threadID : string) (w : World) :
  url_Parse_error (channel_url threadID) = None ->
  sent_of (ArchiveThread c threadID w) = [archive_request c threadID]
  /\ Method (archive_request c threadID) = "PATCH"
  /\ Body (archive_request c threadID)
     = Some (render encodeString (JObj [("archived", JBool true)]))
  /\ forall (resp : Response) (w1 : World),
      RoundTrip (archive_request c threadID) w = (Ok resp, w1) ->
      (value_of (ArchiveThread c threadID w) = None
       <-> StatusCode resp = 200)
      /\ (StatusCode resp = 200 ->
          ArchiveThread c threadID w
          = (None, w1, [Sent (archive_request c threadID)]))
      /\ (StatusCode resp <> 200 ->
          exists err : error,
            ArchiveThread c threadID w
            = (Some err, w1, [Sent (archive_request c threadID); BodyRead])
            /\ carries err resp).
Proof.
  intros Hurl. rewrite ArchiveThread_run by assumption. cbv zeta.
  split; [|split; [reflexivity|split; [reflexivity|]]].
  - destruct (RoundTrip (archive_request c threadID) w) as [[resp|err] w1];
      [|reflexivity].
    destruct (negb (StatusCode resp =? 200)%Z); reflexivity.
  - intros resp w1 Hsend. rewrite Hsend.
    destruct (Z.eqb_spec (StatusCode resp) 200) as [H200|H200];
      cbn [negb value_of fst].
    + repeat split; try tauto; try discriminate.
    + repeat split; try tauto; try discriminate.
      intros _. eexists. split; [reflexivity | apply api_error_carries].
Qed.

(** *** Request transport *)

(** The requests [GetOrCreateRepoTag] can send: none, the fetch, or the
    fetch and then an update. *)
Lemma GetOrCreateRepoTag_sends (c : Client) (repoName : string) (w : World) :
  sent_of (GetOrCreateRepoTag c repoName w) = []
  \/ sent_of (GetOrCreateRepoTag c repoName w) = [fetch_request c]
  \/ exists tags : list ForumTag,
       sent_of (GetOrCreateRepoTag c repoName w)
       = [fetch_request c; update_request c tags].
Proof.
  destruct (url_Parse_error (channel_url (forumChannelID c)))
    as [err|] eqn:Hurl.
  - rewrite (GetOrCreateRepoTag_bad_url _ _ _ _ Hurl). now left.
  - rewrite GetOrCreateRepoTag_run by assumption. cbv zeta.
    destruct (RoundTrip (fetch_request c) w) as [[resp|err] w1];
      [|now right; left].
    destruct (negb (StatusCode resp =? 200)%Z); [now right; left|].
    destruct (Unmarshal_ForumChannelResponse (Response_Body resp))
      as [channel|err]; [|now right; left].
    destruct (scan_tags repoName (AvailableTags channel));
      [now right; left|].
    right; right. exists (AvailableTags channel ++ [new_tag repoName]).
    destruct (RoundTrip (update_request c _) w1) as [[resp2|err] w2];
      [|reflexivity].
    destruct (negb (StatusCode resp2 =? 200)%Z); [reflexivity|].
    destruct (Unmarshal_ForumChannelResponse (Response_Body resp2))
      as [updated|err]; [|reflexivity].
    destruct (scan_tags repoName (AvailableTags updated)); reflexivity.
Qed.

(** C7. Every request sent by any of the four operations of a client
    built by [NewClient] from a token carries [Authorization: Bot <token>]
    for that token, and carries [Content-Type: application/json] exactly
    when it has a body; the GET of [GetOrCreateRepoTag] has no body and no
    [Content-Type]. *)
Theorem every_request_well_formed (tok channel : string)
  (repoName title threadID : string) (message : ThreadMessage)
  (tagIDs : list string) (w : World) :
  Forall (well_formed_headers tok)
    (sent_of (GetOrCreateRepoTag (NewClient tok channel) repoName w))
  /\ Forall (well_formed_headers tok)
       (sent_of (CreateThread (NewClient tok channel) title message tagIDs w))
  /\ Forall (well_formed_headers tok)
       (sent_of (PostMessage (NewClient tok channel) threadID message w))
  /\ Forall (well_formed_headers tok)
       (sent_of (ArchiveThread (NewClient tok channel) threadID w))
  /\ Forall (fun req => Method req = "GET" ->
                        Body req = None
                        /\ Header req !! "Content-Type" = None)
       (sent_of (GetOrCreateRepoTag (NewClient tok channel) repoName w)).
Proof.
  set (c := NewClient tok channel).
  change tok with (token c).
  pose proof (GetOrCreateRepoTag_sends c repoName w) as Hsent.
  repeat split.
  - destruct Hsent as [->|[->|[tags ->]]]; repeat constructor;
      auto using fetch_request_well_formed, update_request_well_formed.
  - destruct (url_Parse_error (channel_url (forumChannelID c) +:+ "/threads"))
      as [err|] eqn:Hurl.
    + rewrite (CreateThread_bad_url _ _ _ _ _ _ Hurl). constructor.
    + rewrite CreateThread_run by assumption. cbv zeta.
      destruct (RoundTrip _ w) as [[resp|err] w1].
      * destruct (negb _);
          [|destruct (Unmarshal_CreateThreadResponse _)];
          repeat constructor; apply create_request_well_formed.
      * repeat constructor; apply create_request_well_formed.
  - destruct (url_Parse_error (channel_url threadID +:+ "/messages"))
      as [err|] eqn:Hurl.
    + rewrite (PostMessage_bad_url _ _ _ _ _ Hurl). constructor.
    + rewrite PostMessage_run by assumption. cbv zeta.
      destruct (RoundTrip _ w) as [[resp|err] w1];
        [destruct (_ && _)|];
        repeat constructor; apply message_request_well_formed.
  - destruct (url_Parse_error (channel_url threadID)) as [err|] eqn:Hurl.
    + rewrite (ArchiveThread_bad_url _ _ _ _ Hurl). constructor.
    + rewrite ArchiveThread_run by assumption. cbv zeta.
      destruct (RoundTrip _ w) as [[resp|err] w1];
        [destruct (negb _)|];
        repeat constructor; apply archive_request_well_formed.
  - assert (Hfetch : Method (fetch_request c) = "GET" ->
                     Body (fetch_request c) = None
                     /\ Header (fetch_request c) !! "Content-Type" = None).
    { intros _. split; [reflexivity|].
      cbn. apply lookup_singleton_ne. discriminate. }
    assert (Hupdate : forall tags,
               Method (update_request c tags) = "GET" ->
               Body (update_request c tags) = None
               /\ Header (update_request c tags) !! "Content-Type" = None).
    { intros tags H. cbn in H. discriminate H. }
    destruct Hsent as [->|[->|[tags ->]]]; auto.
Qed.

End Properties.

(** ** The scenarios of the specification, on the scripted remote side *)

(** Fetch answers [{available_tags: [{id: 1, name: repoA}]}]: the tag of
    repoA is found, and no update is sent. *)
Lemma existing_tag_fast_path_scenario :
  GetOrCreateRepoTag Mock.client "repoA"
    [Mock.reply 200 (Mock.channel_text [Mock.tag "1" "repoA"])]
  = (("1", None), [], [Sent (fetch_request Mock.client); BodyRead])
  /\ count_method "PATCH"
       (sent_of (GetOrCreateRepoTag Mock.client "repoA"
                   [Mock.reply 200 (Mock.channel_text [Mock.tag "1" "repoA"])]))
     = 0%nat.
Proof.
  destruct (existing_tag_fast_path (rt := Mock.runtime) Mock.client "repoA"
              (Mock.channel_text [Mock.tag "1" "repoA"])
              {| AvailableTags := [Mock.tag "1" "repoA"] |}
              (Mock.tag "1" "repoA")
              [Mock.reply 200 (Mock.channel_text [Mock.tag "1" "repoA"])] [])
    as (t & _ & Hunique & Hrun & _ & Hpatch).
  - reflexivity.
  - reflexivity.
  - reflexivity.
  - apply list_elem_of_here.
  - reflexivity.
  - pose proof (Hunique (NoDup_singleton _)) as ->. split; assumption.
Defined.

(** Fetch answers an empty catalog, the update answers
    [{available_tags: [{id: 42, name: repoB}]}]: the id 42 is returned after
    one fetch and one update. *)
Lemma absent_tag_is_created_scenario :
  GetOrCreateRepoTag Mock.client "repoB"
    [Mock.reply 200 (Mock.channel_text []);
     Mock.reply 200 (Mock.channel_text [Mock.tag "42" "repoB"])]
  = (("42", None), [],
     [Sent (fetch_request Mock.client); BodyRead;
      Sent (update_request Mock.client [new_tag "repoB"]); BodyRead])
  /\ Body (update_request (rt := Mock.runtime) Mock.client [new_tag "repoB"])
     = Some (Mock.channel_text [Mock.tag "" "repoB"]).
Proof.
  destruct (absent_tag_is_created (rt := Mock.runtime) Mock.client "repoB"
              (Mock.channel_text []) {| AvailableTags := [] |}
              [Mock.reply 200 (Mock.channel_text []);
               Mock.reply 200 (Mock.channel_text [Mock.tag "42" "repoB"])]
              [Mock.reply 200 (Mock.channel_text [Mock.tag "42" "repoB"])])
    as (_ & _ & _ & Hbody & Hreturn).
  - reflexivity.
  - reflexivity.
  - reflexivity.
  - constructor.
  - destruct (Hreturn (Mock.channel_text [Mock.tag "42" "repoB"])
                {| AvailableTags := [Mock.tag "42" "repoB"] |}
                (Mock.tag "42" "repoB") [])
      as (t & _ & Hunique & Hrun).
    + reflexivity.
    + reflexivity.
    + apply list_elem_of_here.
    + reflexivity.
    + pose proof (Hunique (NoDup_singleton _)) as ->.
      split; [exact Hrun | exact Hbody].
Defined.

(** The update's answer still lacks the tag: the contract violation is
    reported. *)
Lemma created_tag_missing_from_response_scenario :
  GetOrCreateRepoTag Mock.client "repoB"
    [Mock.reply 200 (Mock.channel_text []);
     Mock.reply 200 (Mock.channel_text [Mock.tag "1" "repoA"])]
  = (("", Some "tag created but not found in response"), [],
     [Sent (fetch_request Mock.client); BodyRead;
      Sent (update_request Mock.client [new_tag "repoB"]); BodyRead]).
Proof.
  apply (created_tag_missing_from_response (rt := Mock.runtime) Mock.client
           "repoB" (Mock.channel_text [])
           (Mock.channel_text [Mock.tag "1" "repoA"])
           {| AvailableTags := [] |}
           {| AvailableTags := [Mock.tag "1" "repoA"] |}
           [Mock.reply 200 (Mock.channel_text []);
            Mock.reply 200 (Mock.channel_text [Mock.tag "1" "repoA"])]
           [Mock.reply 200 (Mock.channel_text [Mock.tag "1" "repoA"])] []).
  - reflexivity.
  - reflexivity.
  - reflexivity.
  - constructor.
  - reflexivity.
  - reflexivity.
  - repeat constructor. discriminate.
Defined.

(** The fetch is answered with status 500: no update follows. *)
Lemma failed_fetch_sends_no_update_scenario :
  exists err : error,
    value_of (GetOrCreateRepoTag Mock.client "repoA"
                [Mock.reply 500 "oops"; Mock.reply 200 "unused"])
    = ("", Some err)
    /\ world_of (GetOrCreateRepoTag Mock.client "repoA"
                  [Mock.reply 500 "oops"; Mock.reply 200 "unused"])
       = [Mock.reply 200 "unused"]
    /\ sent_of (GetOrCreateRepoTag Mock.client "repoA"
                 [Mock.reply 500 "oops"; Mock.reply 200 "unused"])
       = [fetch_request Mock.client]
    /\ count_method "PATCH"
         (sent_of (GetOrCreateRepoTag Mock.client "repoA"
                     [Mock.reply 500 "oops"; Mock.reply 200 "unused"]))
       = 0%nat.
Proof.
  apply (failed_fetch_sends_no_update (rt := Mock.runtime) Mock.client "repoA"
           (Mock.reply 500 "oops")
           [Mock.reply 500 "oops"; Mock.reply 200 "unused"]
           [Mock.reply 200 "unused"]).
  - reflexivity.
  - reflexivity.
  - left. discriminate.
Defined.

(** Two tags are named repoC, with the ids 8 and 9: the id 8 of the first
    is returned, from the fetched catalog and from the update's answer. *)
Lemma first_duplicate_wins_scenario :
  GetOrCreateRepoTag Mock.client "repoC"
    [Mock.reply 200
       (Mock.channel_text
          [Mock.tag "7" "docs"; Mock.tag "8" "repoC"; Mock.tag "9" "repoC"])]
  = (("8", None), [], [Sent (fetch_request Mock.client); BodyRead])
  /\ GetOrCreateRepoTag Mock.client "repoC"
       [Mock.reply 200 (Mock.channel_text []);
        Mock.reply 200
          (Mock.channel_text
             [Mock.tag "7" "docs"; Mock.tag "8" "repoC"; Mock.tag "9" "repoC"])]
     = (("8", None), [],
        [Sent (fetch_request Mock.client); BodyRead;
         Sent (update_request Mock.client [new_tag "repoC"]); BodyRead]).
Proof.
  split.
  - eapply (proj1 (first_duplicate_wins (rt := Mock.runtime) Mock.client
                     "repoC"
                     (Mock.channel_text
                        [Mock.tag "7" "docs"; Mock.tag "8" "repoC";
                         Mock.tag "9" "repoC"])
                     {| AvailableTags :=
                          [Mock.tag "7" "docs"; Mock.tag "8" "repoC";
                           Mock.tag "9" "repoC"] |}
                     [Mock.reply 200
                        (Mock.channel_text
                           [Mock.tag "7" "docs"; Mock.tag "8" "repoC";
                            Mock.tag "9" "repoC"])]
                     [] eq_refl eq_refl eq_refl)
              [Mock.tag "7" "docs"] [Mock.tag "9" "repoC"]
              (Mock.tag "8" "repoC")).
    + reflexivity.
    + repeat constructor. discriminate.
    + reflexivity.
  - eapply (proj2 (first_duplicate_wins (rt := Mock.runtime) Mock.client
                     "repoC" (Mock.channel_text []) {| AvailableTags := [] |}
                     [Mock.reply 200 (Mock.channel_text []);
                      Mock.reply 200
                        (Mock.channel_text
                           [Mock.tag "7" "docs"; Mock.tag "8" "repoC";
                            Mock.tag "9" "repoC"])]
                     [Mock.reply 200
                        (Mock.channel_text
                           [Mock.tag "7" "docs"; Mock.tag "8" "repoC";
                            Mock.tag "9" "repoC"])]
                     eq_refl eq_refl eq_refl)
              (Mock.channel_text
                 [Mock.tag "7" "docs"; Mock.tag "8" "repoC";
                  Mock.tag "9" "repoC"])
              {| AvailableTags :=
                   [Mock.tag "7" "docs"; Mock.tag "8" "repoC";
                    Mock.tag "9" "repoC"] |}
              [] [Mock.tag "7" "docs"] [Mock.tag "9" "repoC"]
              (Mock.tag "8" "repoC")).
    + constructor.
    + reflexivity.
    + reflexivity.
    + reflexivity.
    + repeat constructor. discriminate.
    + reflexivity.
Defined.

(** [CreateThread("Issue #1", {content: "body"})] answered with 201 and
    [{id: 999, name: Issue #1}] returns 999; answered with 403 it returns an
    error that carries the status and the body. *)
Lemma CreateThread_status_scenario :
  CreateThread Mock.client "Issue #1" {| Content := "body"; Embeds := [] |} []
    [Mock.reply 201
       (Mock.thread_text
          (JObj [("id", JStr "999"); ("name", JStr "Issue #1")]))]
  = (("999", None), [],
     [Sent (create_request Mock.client "Issue #1"
              {| Content := "body"; Embeds := [] |} []);
      BodyRead])
  /\ exists err : error,
       CreateThread Mock.client "Issue #1"
         {| Content := "body"; Embeds := [] |} []
         [Mock.reply 403 "Missing Access"]
       = (("", Some err), [],
          [Sent (create_request Mock.client "Issue #1"
                   {| Content := "body"; Embeds := [] |} []);
           BodyRead])
       /\ carries err
            {| StatusCode := 403; Response_Body := "Missing Access" |}.
Proof.
  split.
  - apply (proj1 (CreateThread_status (rt := Mock.runtime) Mock.client
                    "Issue #1" {| Content := "body"; Embeds := [] |} []
                    {| StatusCode := 201;
                       Response_Body :=
                         Mock.thread_text
                           (JObj [("id", JStr "999");
                                  ("name", JStr "Issue #1")]) |}
                    [Mock.reply 201
                       (Mock.thread_text
                          (JObj [("id", JStr "999");
                                 ("name", JStr "Issue #1")]))]
                    [] eq_refl eq_refl)
             eq_refl
             {| CreateThreadResponse_ID := "999";
                CreateThreadResponse_Name := "Issue #1" |}).
    reflexivity.
  - apply (proj2 (CreateThread_status (rt := Mock.runtime) Mock.client
                    "Issue #1" {| Content := "body"; Embeds := [] |} []
                    {| StatusCode := 403; Response_Body := "Missing Access" |}
                    [Mock.reply 403 "Missing Access"] [] eq_refl eq_refl)).
    discriminate.
Defined.

(** A 201 answer [{name: Issue #1}] without an id: the empty id is returned
    and no error. *)
Lemma CreateThread_empty_id_not_checked_scenario :
  CreateThread Mock.client "Issue #1" {| Content := "body"; Embeds := [] |} []
    [Mock.reply 201 (Mock.thread_text (JObj [("name", JStr "Issue #1")]))]
  = (("", None), [],
     [Sent (create_request Mock.client "Issue #1"
              {| Content := "body"; Embeds := [] |} []);
      BodyRead]).
Proof.
  apply (CreateThread_empty_id_not_checked (rt := Mock.runtime) Mock.client
           "Issue #1" (Mock.thread_text (JObj [("name", JStr "Issue #1")]))
           {| Content := "body"; Embeds := [] |} []
           {| CreateThreadResponse_ID := "";
              CreateThreadResponse_Name := "Issue #1" |}
           [Mock.reply 201
              (Mock.thread_text (JObj [("name", JStr "Issue #1")]))] []).
  - reflexivity.
  - reflexivity.
  - reflexivity.
  - reflexivity.
Defined.

(** [PostMessage] answered with 201 succeeds without reading the body;
    answered with 404 it fails. *)
Lemma PostMessage_status_scenario :
  PostMessage Mock.client "999" {| Content := "update"; Embeds := [] |}
    [Mock.reply 201 "ignored"]
  = (None, [],
     [Sent (message_request Mock.client "999"
              {| Content := "update"; Embeds := [] |})])
  /\ exists err : error,
       PostMessage Mock.client "999" {| Content := "update"; Embeds := [] |}
         [Mock.reply 404 "Unknown Channel"]
       = (Some err, [],
          [Sent (message_request Mock.client "999"
                   {| Content := "update"; Embeds := [] |});
           BodyRead])
       /\ carries err
            {| StatusCode := 404; Response_Body := "Unknown Channel" |}.
Proof.
  split.
  - apply (proj1 (proj2 (PostMessage_status (rt := Mock.runtime) Mock.client
                           "999" {| Content := "update"; Embeds := [] |}
                           {| StatusCode := 201; Response_Body := "ignored" |}
                           [Mock.reply 201 "ignored"] [] eq_refl eq_refl))).
    right. reflexivity.
  - apply (proj2 (proj2 (PostMessage_status (rt := Mock.runtime) Mock.client
                           "999" {| Content := "update"; Embeds := [] |}
                           {| StatusCode := 404;
                              Response_Body := "Unknown Channel" |}
                           [Mock.reply 404 "Unknown Channel"] []
                           eq_refl eq_refl))).
    intros [H|H]; discriminate H.
Defined.

(** [ArchiveThread("999")] answered with 403: one PATCH was sent, and the
    error carries the status 403 and the body. *)
Lemma ArchiveThread_status_scenario :
  sent_of (ArchiveThread Mock.client "999" [Mock.reply 403 "Missing Access"])
  = [archive_request Mock.client "999"]
  /\ exists err : error,
       ArchiveThread Mock.client "999" [Mock.reply 403 "Missing Access"]
       = (Some err, [], [Sent (archive_request Mock.client "999"); BodyRead])
       /\ carries err
            {| StatusCode := 403; Response_Body := "Missing Access" |}.
Proof.
  destruct (ArchiveThread_status (rt := Mock.runtime) Mock.client "999"
              [Mock.reply 403 "Missing Access"] eq_refl)
    as (Hsent & _ & _ & Hstatus).
  split; [exact Hsent|].
  apply (Hstatus {| StatusCode := 403; Response_Body := "Missing Access" |} []
           eq_refl).
  discriminate.
Defined.

(** ** Further properties of the client *)

Section ClientBehaviour.

Context {World : Type} `{rt : Runtime World}.

(** *** What each operation can send *)

Lemma CreateThread_sends (c : Client) (title : string)
  (message : ThreadMessage) (tagIDs : list string) (w : World) :
  sent_of (CreateThread c title message tagIDs w) = []
  \/ sent_of (CreateThread c title message tagIDs w)
     = [create_request c title message tagIDs].
Proof.
  destruct (url_Parse_error (channel_url (forumChannelID c) +:+ "/threads"))
    as [err|] eqn:Hurl.
  - rewrite (CreateThread_bad_url _ _ _ _ _ _ Hurl). now left.
  - right. rewrite CreateThread_run by assumption. cbv zeta.
    destruct (RoundTrip (create_request c title message tagIDs) w)
      as [[resp|err] w1]; [|reflexivity].
    destruct (negb (StatusCode resp =? 201)%Z); [reflexivity|].
    destruct (Unmarshal_CreateThreadResponse (Response_Body resp));
      reflexivity.
Qed.

Lemma PostMessage_sends (c : Client) (threadID : string)
  (message : ThreadMessage) (w : World) :
  sent_of (PostMessage c threadID message w) = []
  \/ sent_of (PostMessage c threadID message w)
     = [message_request c threadID message].
Proof.
  destruct (url_Parse_error (channel_url threadID +:+ "/messages"))
    as [err|] eqn:Hurl.
  - rewrite (PostMessage_bad_url _ _ _ _ _ Hurl). now left.
  - right. rewrite PostMessage_run by assumption. cbv zeta.
    destruct (RoundTrip (message_request c threadID message) w)
      as [[resp|err] w1]; [|reflexivity].
    destruct (negb (StatusCode resp =? 200)%Z
              && negb (StatusCode resp =? 201)%Z); reflexivity.
Qed.

Lemma ArchiveThread_sends (c : Client) (threadID : string) (w : World) :
  sent_of (ArchiveThread c threadID w) = []
  \/ sent_of (ArchiveThread c threadID w) = [archive_request c threadID].
Proof.
  destruct (url_Parse_error (channel_url threadID)) as [err|] eqn:Hurl.
  - rewrite (ArchiveThread_bad_url _ _ _ _ Hurl). now left.
  - right. rewrite ArchiveThread_run by assumption. cbv zeta.
    destruct (RoundTrip (archive_request c threadID) w) as [[resp|err] w1];
      [|reflexivity].
    destruct (negb (StatusCode resp =? 200)%Z); reflexivity.
Qed.

(** X1. Whatever the remote side answers (and also when the transport
    fails), [CreateThread] sends exactly one request: a POST to the threads
    of the forum channel whose body is the encoding of the
    [CreateThreadRequest] made of the title, the message and the tag ids;
    the [applied_tags] member is written exactly when tag ids are given. *)
Theorem CreateThread_sends_one_post (c : Client) (title : string)
  (message : ThreadMessage) (tagIDs : list string) (w : World) :
  url_Parse_error (channel_url (forumChannelID c) +:+ "/threads") = None ->
  exists req : Request,
    sent_of (CreateThread c title message tagIDs w) = [req]
    /\ Method req = "POST"
    /\ URL req
       = DiscordAPIBase +:+ "/channels/" +:+ forumChannelID c +:+ "/threads"
    /\ Body req
       = Some (render encodeString
                 (json_of_CreateThreadRequest
                    {| CreateThreadRequest_Name := title;
                       CreateThreadRequest_Message := message;
                       AppliedTags := tagIDs |}))
    /\ (member "applied_tags"
          (members_of
             (json_of_CreateThreadRequest
                {| CreateThreadRequest_Name := title;
                   CreateThreadRequest_Message := message;
                   AppliedTags := tagIDs |}))
        = match tagIDs with
          | [] => None
          | _ :: _ => Some (JArr (map JStr tagIDs))
          end).
Proof.
  intros Hurl. exists (create_request c title message tagIDs).
  split.
  - destruct (CreateThread_sends c title message tagIDs w) as [H|H];
      [|exact H].
    exfalso. revert H. rewrite CreateThread_run by assumption. cbv zeta.
    destruct (RoundTrip (create_request c title message tagIDs) w)
      as [[resp|err] w1]; [|discriminate].
    destruct (negb (StatusCode resp =? 201)%Z); [discriminate|].
    destruct (Unmarshal_CreateThreadResponse (Response_Body resp));
      discriminate.
  - split; [reflexivity|]. split.
    + cbn [create_request URL]. unfold channel_url.
      now rewrite append_assoc, append_assoc.
    + split; [destruct tagIDs; reflexivity|].
      destruct tagIDs; reflexivity.
Qed.

(** X2. Whatever the remote side answers, [PostMessage] sends exactly one
    request: a POST to the messages of the thread whose body is the encoding
    of the message itself; no message, the empty one included, is held back
    locally. *)
Theorem PostMessage_sends_one_post (c : Client) (threadID : string)
  (message : ThreadMessage) (w : World) :
  url_Parse_error (channel_url threadID +:+ "/messages") = None ->
  exists req : Request,
    sent_of (PostMessage c threadID message w) = [req]
    /\ Method req = "POST"
    /\ URL req = DiscordAPIBase +:+ "/channels/" +:+ threadID +:+ "/messages"
    /\ Body req
       = Some (render encodeString (json_of_ThreadMessage message)).
Proof.
  intros Hurl. exists (message_request c threadID message).
  split.
  - rewrite PostMessage_run by assumption. cbv zeta.
    destruct (RoundTrip (message_request c threadID message) w)
      as [[resp|err] w1]; [|reflexivity].
    destruct (negb (StatusCode resp =? 200)%Z
              && negb (StatusCode resp =? 201)%Z); reflexivity.
  - split; [reflexivity|]. split; [|reflexivity].
    cbn [message_request URL]. unfold channel_url.
    now rewrite append_assoc, append_assoc.
Qed.

(** When the scan of the fetched tags falls through, the update follows
    the fetch, however the update is answered. *)
Lemma GetOrCreateRepoTag_sends_update (c : Client) (repoName : string)
  (resp : Response) (channel : ForumChannelResponse) (w w1 : World) :
  url_Parse_error (channel_url (forumChannelID c)) = None ->
  RoundTrip (fetch_request c) w = (Ok resp, w1) ->
  StatusCode resp = 200 ->
  Unmarshal_ForumChannelResponse (Response_Body resp) = Ok channel ->
  scan_tags repoName (AvailableTags channel) = None ->
  sent_of (GetOrCreateRepoTag c repoName w)
  = [fetch_request c;
     update_request c (AvailableTags channel ++ [new_tag repoName])].
Proof.
  intros Hurl Hfetch Hstatus Hbody Hscan.
  rewrite GetOrCreateRepoTag_run by assumption. cbv zeta.
  rewrite Hfetch, Hstatus. expected_status. rewrite Hbody, Hscan.
  destruct (RoundTrip _ w1) as [[resp2|terr] w2]; [|reflexivity].
  destruct (negb (StatusCode resp2 =? 200)%Z); [reflexivity|].
  destruct (Unmarshal_ForumChannelResponse (Response_Body resp2))
    as [updated|err]; [|reflexivity].
  destruct (scan_tags repoName (AvailableTags updated)); reflexivity.
Qed.

(** *** Failures *)

(** X3. When the transport fails (no response at all), each operation
    returns an error made of its own prefix and the message of the transport
    error, after exactly one attempt and without reading any body: nothing
    is retried. *)
Theorem transport_failure_is_reported (c : Client)
  (repoName title threadID : string) (message : ThreadMessage)
  (tagIDs : list string) (terr : error) (w w1 : World) :
  (url_Parse_error (channel_url (forumChannelID c)) = None ->
   RoundTrip (fetch_request c) w = (Err terr, w1) ->
   GetOrCreateRepoTag c repoName w
   = (("", Some ("failed to get channel: " +:+ terr)), w1,
      [Sent (fetch_request c)]))
  /\ (url_Parse_error (channel_url (forumChannelID c) +:+ "/threads") = None ->
      RoundTrip (create_request c title message tagIDs) w = (Err terr, w1) ->
      CreateThread c title message tagIDs w
      = (("", Some ("failed to send request: " +:+ terr)), w1,
         [Sent (create_request c title message tagIDs)]))
  /\ (url_Parse_error (channel_url threadID +:+ "/messages") = None ->
      RoundTrip (message_request c threadID message) w = (Err terr, w1) ->
      PostMessage c threadID message w
      = (Some ("failed to send request: " +:+ terr), w1,
         [Sent (message_request c threadID message)]))
  /\ (url_Parse_error (channel_url threadID) = None ->
      RoundTrip (archive_request c threadID) w = (Err terr, w1) ->
      ArchiveThread c threadID w
      = (Some ("failed to send request: " +:+ terr), w1,
         [Sent (archive_request c threadID)])).
Proof.
  repeat split; intros Hurl Hsend.
  - rewrite GetOrCreateRepoTag_run by assumption. cbv zeta. now rewrite Hsend.
  - rewrite CreateThread_run by assumption. cbv zeta. now rewrite Hsend.
  - rewrite PostMessage_run by assumption. cbv zeta. now rewrite Hsend.
  - rewrite ArchiveThread_run by assumption. cbv zeta. now rewrite Hsend.
Qed.

(** X4. Once the update has been sent, any failure of it (transport error,
    a status other than 200, or an answer that does not decode) makes
    [GetOrCreateRepoTag] return the empty id with an error, both requests
    having gone out; the error of an unexpected status carries the status
    and the body, under the prefix that tells the update from the fetch. *)
Theorem failed_update_returns_no_id (c : Client) (repoName body : string)
  (channel : ForumChannelResponse) (r2 : result Response) (w w1 w2 : World) :
  url_Parse_error (channel_url (forumChannelID c)) = None ->
  RoundTrip (fetch_request c) w
    = (Ok {| StatusCode := 200; Response_Body := body |}, w1) ->
  Unmarshal_ForumChannelResponse body = Ok channel ->
  not_named repoName (AvailableTags channel) ->
  RoundTrip (update_request c (AvailableTags channel ++ [new_tag repoName])) w1
    = (r2, w2) ->
  match r2 with
  | Err _ => True
  | Ok resp2 =>
      StatusCode resp2 <> 200
      \/ exists err,
           Unmarshal_ForumChannelResponse (Response_Body resp2) = Err err
  end ->
  exists err : error,
    value_of (GetOrCreateRepoTag c repoName w) = ("", Some err)
    /\ world_of (GetOrCreateRepoTag c repoName w) = w2
    /\ sent_of (GetOrCreateRepoTag c repoName w)
       = [fetch_request c;
          update_request c (AvailableTags channel ++ [new_tag repoName])]
    /\ match r2 with
       | Err terr => err = "failed to patch channel: " +:+ terr
       | Ok resp2 =>
           StatusCode resp2 <> 200 ->
           err = api_error "discord API error on patch" (StatusCode resp2)
                   (Response_Body resp2)
           /\ carries err resp2
       end.
Proof.
  intros Hurl Hfetch Hbody Habsent Hupdate Hfails.
  apply scan_tags_None in Habsent.
  rewrite GetOrCreateRepoTag_run by assumption. cbv zeta.
  rewrite Hfetch. expected_status. rewrite Hbody, Habsent, Hupdate.
  destruct r2 as [resp2|terr]; [|eexists; repeat split].
  destruct (Z.eqb_spec (StatusCode resp2) 200) as [H200|H200]; cbn [negb].
  - destruct Hfails as [Hne|[err Herr]]; [contradiction|].
    rewrite Herr. eexists.
    split; [reflexivity|]. split; [reflexivity|]. split; [reflexivity|].
    intros Hne. contradiction.
  - eexists.
    split; [reflexivity|]. split; [reflexivity|]. split; [reflexivity|].
    intros _. split; [reflexivity | apply api_error_carries].
Qed.

(** X5. [GetOrCreateRepoTag] sends an update exactly when the fetch was
    answered with status 200 and a body that decodes to a channel holding
    no tag of the name; in every other case no PATCH leaves the client, and
    never more than one does. *)
Theorem update_sent_exactly_when_absent (c : Client) (repoName : string)
  (r : result Response) (w w1 : World) :
  url_Parse_error (channel_url (forumChannelID c)) = None ->
  RoundTrip (fetch_request c) w = (r, w1) ->
  (count_method "PATCH" (sent_of (GetOrCreateRepoTag c repoName w)) = 1%nat
   <-> exists (resp : Response) (channel : ForumChannelResponse),
         r = Ok resp
         /\ StatusCode resp = 200
         /\ Unmarshal_ForumChannelResponse (Response_Body resp) = Ok channel
         /\ not_named repoName (AvailableTags channel))
  /\ (count_method "PATCH" (sent_of (GetOrCreateRepoTag c repoName w)) = 0%nat
      \/ count_method "PATCH" (sent_of (GetOrCreateRepoTag c repoName w))
         = 1%nat).
Proof.
  intros Hurl Hfetch.
  destruct r as [resp|terr].
  2:{ rewrite GetOrCreateRepoTag_run by assumption. cbv zeta. rewrite Hfetch.
      split; [|now left]. split; [discriminate|].
      intros (resp & channel & H & _). discriminate H. }
  destruct (Z.eqb_spec (StatusCode resp) 200) as [H200|H200].
  2:{ rewrite GetOrCreateRepoTag_run by assumption. cbv zeta. rewrite Hfetch.
      apply Z.eqb_neq in H200 as H200'. rewrite H200'. cbn [negb].
      split; [|now left]. split; [discriminate|].
      intros (resp' & channel & [= <-] & H & _). contradiction. }
  destruct (Unmarshal_ForumChannelResponse (Response_Body resp))
    as [channel|err] eqn:Hbody.
  2:{ rewrite GetOrCreateRepoTag_run by assumption. cbv zeta.
      rewrite Hfetch, H200. expected_status. rewrite Hbody.
      split; [|now left]. split; [discriminate|].
      intros (resp' & channel & [= <-] & _ & H & _). congruence. }
  destruct (scan_tags repoName (AvailableTags channel)) as [id|] eqn:Hscan.
  { rewrite GetOrCreateRepoTag_run by assumption. cbv zeta.
    rewrite Hfetch, H200. expected_status. rewrite Hbody, Hscan.
    split; [|now left]. split; [discriminate|].
    intros (resp' & channel' & [= <-] & _ & H & Habsent).
    apply scan_tags_None in Habsent. congruence. }
  rewrite (GetOrCreateRepoTag_sends_update c repoName resp channel w w1)
    by assumption.
  split; [|now right].
  split; [|reflexivity].
  intros _. exists resp, channel. repeat split; try assumption.
  now apply scan_tags_None.
Qed.

(** Every run of [GetOrCreateRepoTag] ends in one of two ways: the empty
    id with an error, or no error and the id of the first tag named
    [repoName] in a channel decoded from a 200 answer to a request of this
    run. *)
Lemma GetOrCreateRepoTag_outcome (c : Client) (repoName : string) (w : World) :
  (exists err : error,
      value_of (GetOrCreateRepoTag c repoName w) = ("", Some err))
  \/ (exists (req : Request) (resp : Response) (w0 w1 : World)
        (channel : ForumChannelResponse) (t : ForumTag),
        value_of (GetOrCreateRepoTag c repoName w) = (ForumTag_ID t, None)
        /\ req ∈ sent_of (GetOrCreateRepoTag c repoName w)
        /\ RoundTrip req w0 = (Ok resp, w1)
        /\ StatusCode resp = 200
        /\ Unmarshal_ForumChannelResponse (Response_Body resp) = Ok channel
        /\ first_named repoName (AvailableTags channel) t).
Proof.
  destruct (url_Parse_error (channel_url (forumChannelID c)))
    as [err|] eqn:Hurl.
  { rewrite (GetOrCreateRepoTag_bad_url _ _ _ _ Hurl). left. eauto. }
  rewrite GetOrCreateRepoTag_run by assumption. cbv zeta.
  destruct (RoundTrip (fetch_request c) w) as [[resp|terr] w1] eqn:Hfetch;
    [|left; eauto].
  destruct (Z.eqb_spec (StatusCode resp) 200) as [H200|H200]; cbn [negb];
    [|left; eauto].
  destruct (Unmarshal_ForumChannelResponse (Response_Body resp))
    as [channel|err] eqn:Hbody; [|left; eauto].
  destruct (scan_tags repoName (AvailableTags channel)) as [id|] eqn:Hscan.
  { right. apply scan_tags_Some in Hscan as (t & Ht & ->).
    exists (fetch_request c), resp, w, w1, channel, t.
    repeat split; try assumption. apply list_elem_of_here. }
  destruct (RoundTrip (update_request c _) w1) as [[resp2|terr] w2] eqn:Hupd;
    [|left; eauto].
  destruct (Z.eqb_spec (StatusCode resp2) 200) as [H200'|H200']; cbn [negb];
    [|left; eauto].
  destruct (Unmarshal_ForumChannelResponse (Response_Body resp2))
    as [updated|err] eqn:Hbody2; [|left; eauto].
  destruct (scan_tags repoName (AvailableTags updated)) as [id|] eqn:Hscan2;
    [|left; eauto].
  right. apply scan_tags_Some in Hscan2 as (t & Ht & ->).
  exists (update_request c (AvailableTags channel ++ [new_tag repoName])),
    resp2, w1, w2, updated, t.
  repeat split; try assumption.
  apply list_elem_of_further, list_elem_of_here.
Qed.

(** X6. Neither [GetOrCreateRepoTag] nor [CreateThread] ever returns an id
    together with an error: on every path that reports an error, also the
    one where no request could be built, the id is the empty string. *)
Theorem error_comes_with_empty_id (c : Client) (repoName title : string)
  (message : ThreadMessage) (tagIDs : list string) (w : World)
  (id : string) (err : error) :
  (value_of (GetOrCreateRepoTag c repoName w) = (id, Some err) -> id = "")
  /\ (value_of (CreateThread c title message tagIDs w) = (id, Some err) ->
      id = "").
Proof.
  split.
  - destruct (GetOrCreateRepoTag_outcome c repoName w)
      as [[e He]|(req & resp & w0 & w1 & channel & t & He & _)];
      rewrite He; intros [= <- _]; congruence.
  - destruct (url_Parse_error (channel_url (forumChannelID c) +:+ "/threads"))
      as [e|] eqn:Hurl.
    { rewrite (CreateThread_bad_url _ _ _ _ _ _ Hurl). now intros [= <- _]. }
    rewrite CreateThread_run by assumption. cbv zeta.
    destruct (RoundTrip (create_request c title message tagIDs) w)
      as [[resp|terr] w1]; [|now intros [= <- _]].
    destruct (negb (StatusCode resp =? 201)%Z); [now intros [= <- _]|].
    destruct (Unmarshal_CreateThreadResponse (Response_Body resp));
      [discriminate | now intros [= <- _]].
Qed.

(** X7. An id that [GetOrCreateRepoTag] returns without error is always the
    id of a tag named [repoName]: the first such tag of a channel that was
    decoded from a 200 answer to one of the requests of this very run.  The
    id of a tag of another name is never returned. *)
Theorem returned_id_belongs_to_the_name (c : Client) (repoName id : string)
  (w : World) :
  value_of (GetOrCreateRepoTag c repoName w) = (id, None) ->
  exists (req : Request) (resp : Response) (w0 w1 : World)
    (channel : ForumChannelResponse) (t : ForumTag),
    req ∈ sent_of (GetOrCreateRepoTag c repoName w)
    /\ RoundTrip req w0 = (Ok resp, w1)
    /\ StatusCode resp = 200
    /\ Unmarshal_ForumChannelResponse (Response_Body resp) = Ok channel
    /\ first_named repoName (AvailableTags channel) t
    /\ ForumTag_ID t = id.
Proof.
  intros Hvalue.
  destruct (GetOrCreateRepoTag_outcome c repoName w)
    as [[e He]|(req & resp & w0 & w1 & channel & t & He & Hin & Hrt & Hst
                & Hbody & Ht)].
  - rewrite He in Hvalue. discriminate.
  - rewrite He in Hvalue. injection Hvalue as <-.
    exists req, resp, w0, w1, channel, t. repeat split; assumption.
Qed.

(** X11. A 201 answer whose body does not decode makes [CreateThread]
    return the empty id and the decode error under its own prefix: the
    request has gone out and was accepted, yet no thread id reaches the
    caller. *)
Theorem CreateThread_undecodable_answer (c : Client) (title : string)
  (message : ThreadMessage) (tagIDs : list string) (resp : Response)
  (err : error) (w w1 : World) :
  url_Parse_error (channel_url (forumChannelID c) +:+ "/threads") = None ->
  RoundTrip (create_request c title message tagIDs) w = (Ok resp, w1) ->
  StatusCode resp = 201 ->
  Unmarshal_CreateThreadResponse (Response_Body resp) = Err err ->
  CreateThread c title message tagIDs w
  = (("", Some ("failed to parse response: " +:+ err)), w1,
     [Sent (create_request c title message tagIDs); BodyRead]).
Proof.
  intros Hurl Hsend Hstatus Hbody.
  rewrite CreateThread_run by assumption. cbv zeta.
  rewrite Hsend, Hstatus. expected_status. now rewrite Hbody.
Qed.

(** *** What the client never does *)

(** X8. An operation whose URL [net/url] refuses sends nothing, leaves the
    remote side as it was and returns the construction error; an operation
    whose URL is accepted always begins by sending its request.  So a request
    goes out exactly when the URL is accepted. *)
Theorem request_sent_exactly_when_url_accepted (c : Client)
  (repoName title threadID : string) (message : ThreadMessage)
  (tagIDs : list string) (w : World) :
  match url_Parse_error (channel_url (forumChannelID c)) with
  | Some err =>
      GetOrCreateRepoTag c repoName w
      = (("", Some ("failed to create request: " +:+ err)), w, [])
  | None =>
      exists rest, log_of (GetOrCreateRepoTag c repoName w)
                   = Sent (fetch_request c) :: rest
  end
  /\ match url_Parse_error (channel_url (forumChannelID c) +:+ "/threads") with
     | Some err =>
         CreateThread c title message tagIDs w
         = (("", Some ("failed to create request: " +:+ err)), w, [])
     | None =>
         exists rest, log_of (CreateThread c title message tagIDs w)
                      = Sent (create_request c title message tagIDs) :: rest
     end
  /\ match url_Parse_error (channel_url threadID +:+ "/messages") with
     | Some err =>
         PostMessage c threadID message w
         = (Some ("failed to create request: " +:+ err), w, [])
     | None =>
         exists rest, log_of (PostMessage c threadID message w)
                      = Sent (message_request c threadID message) :: rest
     end
  /\ match url_Parse_error (channel_url threadID) with
     | Some err =>
         ArchiveThread c threadID w
         = (Some ("failed to create request: " +:+ err), w, [])
     | None =>
         exists rest, log_of (ArchiveThread c threadID w)
                      = Sent (archive_request c threadID) :: rest
     end.
Proof.
  repeat split.
  - destruct (url_Parse_error (channel_url (forumChannelID c)))
      as [err|] eqn:Hurl.
    + now apply GetOrCreateRepoTag_bad_url.
    + rewrite GetOrCreateRepoTag_run by assumption. cbv zeta.
      destruct (RoundTrip (fetch_request c) w) as [[resp|terr] w1];
        [|eexists; reflexivity].
      destruct (negb (StatusCode resp =? 200)%Z); [eexists; reflexivity|].
      destruct (Unmarshal_ForumChannelResponse (Response_Body resp))
        as [channel|err]; [|eexists; reflexivity].
      destruct (scan_tags repoName (AvailableTags channel));
        [eexists; reflexivity|].
      destruct (RoundTrip (update_request c _) w1) as [[resp2|terr] w2];
        [|eexists; reflexivity].
      destruct (negb (StatusCode resp2 =? 200)%Z); [eexists; reflexivity|].
      destruct (Unmarshal_ForumChannelResponse (Response_Body resp2))
        as [updated|err]; [|eexists; reflexivity].
      destruct (scan_tags repoName (AvailableTags updated));
        eexists; reflexivity.
  - destruct (url_Parse_error (channel_url (forumChannelID c) +:+ "/threads"))
      as [err|] eqn:Hurl.
    + now apply CreateThread_bad_url.
    + rewrite CreateThread_run by assumption. cbv zeta.
      destruct (RoundTrip (create_request c title message tagIDs) w)
        as [[resp|terr] w1]; [|eexists; reflexivity].
      destruct (negb (StatusCode resp =? 201)%Z); [eexists; reflexivity|].
      destruct (Unmarshal_CreateThreadResponse (Response_Body resp));
        eexists; reflexivity.
  - destruct (url_Parse_error (channel_url threadID +:+ "/messages"))
      as [err|] eqn:Hurl.
    + now apply PostMessage_bad_url.
    + rewrite PostMessage_run by assumption. cbv zeta.
      destruct (RoundTrip (message_request c threadID message) w)
        as [[resp|terr] w1]; [|eexists; reflexivity].
      destruct (negb (StatusCode resp =? 200)%Z
                && negb (StatusCode resp =? 201)%Z); eexists; reflexivity.
  - destruct (url_Parse_error (channel_url threadID)) as [err|] eqn:Hurl.
    + now apply ArchiveThread_bad_url.
    + rewrite ArchiveThread_run by assumption. cbv zeta.
      destruct (RoundTrip (archive_request c threadID) w)
        as [[resp|terr] w1]; [|eexists; reflexivity].
      destruct (negb (StatusCode resp =? 200)%Z); eexists; reflexivity.
Qed.

Lemma fetch_request_stays_on_api (c : Client) : stays_on_api (fetch_request c).
Proof. split; [now left | now exists (forumChannelID c)]. Qed.

Lemma update_request_stays_on_api (c : Client) (tags : list ForumTag) :
  stays_on_api (update_request c tags).
Proof. split; [now right; left | now exists (forumChannelID c)]. Qed.

Lemma create_request_stays_on_api (c : Client) (title : string)
  (message : ThreadMessage) (tagIDs : list string) :
  stays_on_api (create_request c title message tagIDs).
Proof.
  split; [now right; right|].
  exists (forumChannelID c +:+ "/threads").
  cbn [create_request URL]. unfold channel_url.
  now rewrite append_assoc, append_assoc.
Qed.

Lemma message_request_stays_on_api (c : Client) (threadID : string)
  (message : ThreadMessage) :
  stays_on_api (message_request c threadID message).
Proof.
  split; [now right; right|].
  exists (threadID +:+ "/messages").
  cbn [message_request URL]. unfold channel_url.
  now rewrite append_assoc, append_assoc.
Qed.

Lemma archive_request_stays_on_api (c : Client) (threadID : string) :
  stays_on_api (archive_request c threadID).
Proof. split; [now right; left | now exists threadID]. Qed.

(** X9. The client never retries and never leaves the API: a run of
    [GetOrCreateRepoTag] sends at most two requests, a run of each other
    operation at most one, and every request sent is a GET, PATCH or POST
    (never a DELETE) to a channel path under [DiscordAPIBase]. *)
Theorem bounded_requests_on_the_api (c : Client)
  (repoName title threadID : string) (message : ThreadMessage)
  (tagIDs : list string) (w : World) :
  (length (sent_of (GetOrCreateRepoTag c repoName w)) <= 2)%nat
  /\ (length (sent_of (CreateThread c title message tagIDs w)) <= 1)%nat
  /\ (length (sent_of (PostMessage c threadID message w)) <= 1)%nat
  /\ (length (sent_of (ArchiveThread c threadID w)) <= 1)%nat
  /\ Forall stays_on_api (sent_of (GetOrCreateRepoTag c repoName w))
  /\ Forall stays_on_api (sent_of (CreateThread c title message tagIDs w))
  /\ Forall stays_on_api (sent_of (PostMessage c threadID message w))
  /\ Forall stays_on_api (sent_of (ArchiveThread c threadID w)).
Proof.
  pose proof (GetOrCreateRepoTag_sends c repoName w) as Htag.
  pose proof (CreateThread_sends c title message tagIDs w) as Hcreate.
  pose proof (PostMessage_sends c threadID message w) as Hpost.
  pose proof (ArchiveThread_sends c threadID w) as Harchive.
  repeat split.
  - destruct Htag as [->|[->|[tags ->]]]; cbn; lia.
  - destruct Hcreate as [->| ->]; cbn; lia.
  - destruct Hpost as [->| ->]; cbn; lia.
  - destruct Harchive as [->| ->]; cbn; lia.
  - destruct Htag as [->|[->|[tags ->]]].
    + constructor.
    + constructor; [apply fetch_request_stays_on_api | constructor].
    + constructor; [apply fetch_request_stays_on_api|].
      constructor; [apply update_request_stays_on_api | constructor].
  - destruct Hcreate as [->| ->];
      [|constructor; [apply create_request_stays_on_api|]]; constructor.
  - destruct Hpost as [->| ->];
      [|constructor; [apply message_request_stays_on_api|]]; constructor.
  - destruct Harchive as [->| ->];
      [|constructor; [apply archive_request_stays_on_api|]]; constructor.
Qed.

(** X10. The update never spoils the catalog it was read from: when the
    fetched tags have pairwise distinct names, the PATCH (if one is sent)
    carries a tag list that starts with the fetched tags, in their order and
    with their ids, ends with the new tag, and still has pairwise distinct
    names. *)
Theorem update_keeps_names_distinct (c : Client) (repoName body : string)
  (channel : ForumChannelResponse) (w w1 : World) :
  url_Parse_error (channel_url (forumChannelID c)) = None ->
  RoundTrip (fetch_request c) w
    = (Ok {| StatusCode := 200; Response_Body := body |}, w1) ->
  Unmarshal_ForumChannelResponse body = Ok channel ->
  NoDup (map ForumTag_Name (AvailableTags channel)) ->
  forall req : Request,
    req ∈ sent_of (GetOrCreateRepoTag c repoName w) ->
    Method req = "PATCH" ->
    exists tags : list ForumTag,
      req = update_request c tags
      /\ tags = AvailableTags channel ++ [new_tag repoName]
      /\ NoDup (map ForumTag_Name tags).
Proof.
  intros Hurl Hfetch Hbody Hnd req Hin Hmethod.
  destruct (scan_tags repoName (AvailableTags channel)) as [id|] eqn:Hscan.
  - exfalso. revert Hin.
    rewrite GetOrCreateRepoTag_run by assumption. cbv zeta.
    rewrite Hfetch. expected_status. rewrite Hbody, Hscan.
    cbn. intros Hin. apply list_elem_of_singleton in Hin. subst req.
    discriminate Hmethod.
  - rewrite (GetOrCreateRepoTag_sends_update c repoName
               {| StatusCode := 200; Response_Body := body |} channel w w1)
      in Hin by (assumption || reflexivity).
    apply elem_of_cons in Hin as [->|Hin]; [discriminate Hmethod|].
    apply list_elem_of_singleton in Hin. subst req.
    eexists. split; [reflexivity|]. split; [reflexivity|].
    rewrite map_app. cbn [map new_tag ForumTag_Name].
    apply NoDup_app. split; [exact Hnd|]. split; [|apply NoDup_singleton].
    intros name Hname Hnew. apply list_elem_of_singleton in Hnew. subst name.
    apply scan_tags_None in Hscan. unfold not_named in Hscan.
    rewrite Forall_forall in Hscan.
    apply list_elem_of_fmap in Hname as (t & Ht & Hin').
    now apply (Hscan t Hin').
Qed.

End ClientBehaviour.

(** *** The wire documents *)

Lemma member_field_eq (k : string) (v : json) (rest : list (string * json)) :
  member k (field k v ++ rest) = Some v.
Proof. cbn. now rewrite String.eqb_refl. Qed.

Lemma member_field_ne (k key : string) (v : json)
  (rest : list (string * json)) :
  String.eqb k key = false ->
  member key (field k v ++ rest) = member key rest.
Proof. intros H. cbn. now rewrite H. Qed.

Lemma member_omitempty_eq (k : string) (b : bool) (v : json)
  (rest : list (string * json)) :
  member k (field_omitempty k b v ++ rest)
  = if b then member k rest else Some v.
Proof. destruct b; cbn; [reflexivity | now rewrite String.eqb_refl]. Qed.

Lemma member_omitempty_ne (k key : string) (b : bool) (v : json)
  (rest : list (string * json)) :
  String.eqb k key = false ->
  member key (field_omitempty k b v ++ rest) = member key rest.
Proof. intros H. destruct b; cbn; [reflexivity | now rewrite H]. Qed.

Lemma omitempty_string_inj (a b : string) :
  (if is_empty_string a then None else Some (JStr a))
  = (if is_empty_string b then None else Some (JStr b)) ->
  a = b.
Proof.
  unfold is_empty_string.
  destruct (String.eqb_spec a ""), (String.eqb_spec b ""); congruence.
Qed.

Lemma map_injective {A B : Type} (f : A -> B) :
  (forall x y, f x = f y -> x = y) ->
  forall l1 l2 : list A, map f l1 = map f l2 -> l1 = l2.
Proof.
  intros Hf l1. induction l1 as [|x l1 IH]; intros [|y l2] H;
    try discriminate; [reflexivity|].
  cbn in H. injection H as Hxy Hrest.
  f_equal; [now apply Hf | now apply IH].
Qed.

Lemma omitempty_list_inj {A : Type} (f : A -> json) (l1 l2 : list A) :
  (forall x y, f x = f y -> x = y) ->
  (if is_empty_list l1 then None else Some (JArr (map f l1)))
  = (if is_empty_list l2 then None else Some (JArr (map f l2))) ->
  l1 = l2.
Proof.
  intros Hf H.
  destruct l1 as [|x l1], l2 as [|y l2]; cbn [is_empty_list] in H;
    try discriminate; [reflexivity|].
  apply (map_injective f Hf). congruence.
Qed.

Lemma json_of_EmbedField_inj (f1 f2 : EmbedField) :
  json_of_EmbedField f1 = json_of_EmbedField f2 -> f1 = f2.
Proof.
  destruct f1 as [n1 v1 i1], f2 as [n2 v2 i2].
  unfold json_of_EmbedField. cbn [EmbedField_Name EmbedField_Value
                                  EmbedField_Inline].
  intros [= Hn Hv Hi]. subst.
  destruct i1, i2; cbn in Hi; try discriminate; reflexivity.
Qed.

Lemma json_of_EmbedFooter_inj (f1 f2 : EmbedFooter) :
  json_of_EmbedFooter f1 = json_of_EmbedFooter f2 -> f1 = f2.
Proof.
  destruct f1 as [t1 i1], f2 as [t2 i2].
  unfold json_of_EmbedFooter. cbn [EmbedFooter_Text EmbedFooter_IconURL].
  intros [= Ht Hi]. subst. f_equal.
  apply omitempty_string_inj.
  apply (f_equal (member "icon_url")) in Hi.
  rewrite <- (app_nil_r (field_omitempty _ _ (JStr i1))) in Hi.
  rewrite <- (app_nil_r (field_omitempty _ _ (JStr i2))) in Hi.
  now rewrite !member_omitempty_eq in Hi.
Qed.

(** What a lookup finds in the document of an embed, member by member. *)
Lemma json_of_Embed_members (e : Embed) :
  member "title" (members_of (json_of_Embed e))
  = (if is_empty_string (Embed_Title e) then None
     else Some (JStr (Embed_Title e)))
  /\ member "description" (members_of (json_of_Embed e))
     = (if is_empty_string (Embed_Description e) then None
        else Some (JStr (Embed_Description e)))
  /\ member "url" (members_of (json_of_Embed e))
     = (if is_empty_string (Embed_URL e) then None
        else Some (JStr (Embed_URL e)))
  /\ member "color" (members_of (json_of_Embed e))
     = (if (Embed_Color e =? 0)%Z then None else Some (JNum (Embed_Color e)))
  /\ member "fields" (members_of (json_of_Embed e))
     = (if is_empty_list (Embed_Fields e) then None
        else Some (JArr (map json_of_EmbedField (Embed_Fields e))))
  /\ member "timestamp" (members_of (json_of_Embed e))
     = (if is_empty_string (Embed_Timestamp e) then None
        else Some (JStr (Embed_Timestamp e)))
  /\ member "footer" (members_of (json_of_Embed e))
     = match Embed_Footer e with
       | Some f => Some (json_of_EmbedFooter f)
       | None => None
       end.
Proof.
  unfold json_of_Embed, members_of.
  repeat split;
    repeat first
      [ rewrite member_omitempty_eq
      | rewrite member_omitempty_ne by reflexivity ];
    destruct (Embed_Footer e); unfold field; cbn [member];
    rewrite ?String.eqb_refl; reflexivity.
Qed.

Lemma json_of_Embed_inj (e1 e2 : Embed) :
  json_of_Embed e1 = json_of_Embed e2 -> e1 = e2.
Proof.
  intros H.
  destruct (json_of_Embed_members e1) as (Ht & Hd & Hu & Hc & Hfs & Hts & Hft).
  destruct (json_of_Embed_members e2)
    as (Ht' & Hd' & Hu' & Hc' & Hfs' & Hts' & Hft').
  rewrite H in Ht, Hd, Hu, Hc, Hfs, Hts, Hft.
  rewrite Ht' in Ht. rewrite Hd' in Hd. rewrite Hu' in Hu. rewrite Hc' in Hc.
  rewrite Hfs' in Hfs. rewrite Hts' in Hts. rewrite Hft' in Hft.
  clear H Ht' Hd' Hu' Hc' Hfs' Hts' Hft'.
  destruct e1 as [t1 d1 u1 c1 fs1 ts1 ft1], e2 as [t2 d2 u2 c2 fs2 ts2 ft2].
  cbn [Embed_Title Embed_Description Embed_URL Embed_Color Embed_Fields
       Embed_Timestamp Embed_Footer] in *.
  symmetry in Ht, Hd, Hu, Hts, Hfs.
  apply omitempty_string_inj in Ht, Hd, Hu, Hts.
  apply (omitempty_list_inj _ _ _ json_of_EmbedField_inj) in Hfs.
  subst. f_equal.
  - destruct (Z.eqb_spec c1 0), (Z.eqb_spec c2 0); congruence.
  - destruct ft1 as [f1|], ft2 as [f2|]; try discriminate; [|reflexivity].
    f_equal. apply json_of_EmbedFooter_inj. congruence.
Qed.

Lemma json_of_ThreadMessage_inj (m1 m2 : ThreadMessage) :
  json_of_ThreadMessage m1 = json_of_ThreadMessage m2 -> m1 = m2.
Proof.
  destruct m1 as [c1 es1], m2 as [c2 es2].
  unfold json_of_ThreadMessage. cbn [Content Embeds].
  intros [= H].
  pose proof (f_equal (member "content") H) as Hc.
  pose proof (f_equal (member "embeds") H) as He.
  clear H.
  rewrite !member_omitempty_eq in Hc.
  rewrite <- (app_nil_r (field_omitempty "embeds" _ (JArr (map _ es1)))) in Hc, He.
  rewrite <- (app_nil_r (field_omitempty "embeds" _ (JArr (map _ es2)))) in Hc, He.
  rewrite !member_omitempty_ne in Hc by reflexivity.
  rewrite !(member_omitempty_ne "content") in He by reflexivity.
  rewrite !member_omitempty_eq in He.
  cbn [member] in Hc, He.
  apply omitempty_string_inj in Hc.
  apply (omitempty_list_inj _ _ _ json_of_Embed_inj) in He.
  now subst.
Qed.

Lemma JStr_inj (a b : string) : JStr a = JStr b -> a = b.
Proof. now intros [= ->]. Qed.

Lemma json_of_CreateThreadRequest_inj (r1 r2 : CreateThreadRequest) :
  json_of_CreateThreadRequest r1 = json_of_CreateThreadRequest r2 -> r1 = r2.
Proof.
  destruct r1 as [n1 m1 ts1], r2 as [n2 m2 ts2].
  unfold json_of_CreateThreadRequest.
  cbn [CreateThreadRequest_Name CreateThreadRequest_Message AppliedTags].
  intros [= Hn Hm Hts].
  assert (Hmessage : m1 = m2)
    by (apply json_of_ThreadMessage_inj; unfold json_of_ThreadMessage;
        now rewrite Hm).
  subst. f_equal.
  apply (omitempty_list_inj JStr _ _ JStr_inj).
  apply (f_equal (member "applied_tags")) in Hts.
  rewrite <- (app_nil_r (field_omitempty _ _ (JArr (map _ ts1)))) in Hts.
  rewrite <- (app_nil_r (field_omitempty _ _ (JArr (map _ ts2)))) in Hts.
  now rewrite !member_omitempty_eq in Hts.
Qed.

Lemma json_of_ForumTag_inj (t1 t2 : ForumTag) :
  json_of_ForumTag t1 = json_of_ForumTag t2 -> t1 = t2.
Proof.
  destruct t1, t2. unfold json_of_ForumTag. cbn. now intros [= -> ->].
Qed.

(** X12. Leaving out empty fields ([omitempty]) conflates no two values:
    the JSON value a struct is encoded as (its members, in order, with
    their values, before any string is escaped into text) determines the
    struct.  Two messages with the same JSON value are the same message, and
    likewise for thread-creation requests and for the tag lists of an
    update.  This is a statement about the JSON values only: the bytes of two
    bodies can still coincide where [encoding/json] escapes two different
    strings to the same text (it replaces invalid UTF-8), which the string
    encoder of the runtime is free to do. *)
Theorem documents_determine_values :
  (forall m1 m2 : ThreadMessage,
      json_of_ThreadMessage m1 = json_of_ThreadMessage m2 <-> m1 = m2)
  /\ (forall r1 r2 : CreateThreadRequest,
        json_of_CreateThreadRequest r1 = json_of_CreateThreadRequest r2
        <-> r1 = r2)
  /\ (forall p1 p2 : PatchBody,
        json_of_PatchBody p1 = json_of_PatchBody p2 <-> p1 = p2).
Proof.
  repeat split; try (now intros ->).
  - apply json_of_ThreadMessage_inj.
  - apply json_of_CreateThreadRequest_inj.
  - destruct p1 as [ts1], p2 as [ts2].
    unfold json_of_PatchBody. cbn [PatchBody_AvailableTags].
    intros [= H]. f_equal.
    now apply (map_injective json_of_ForumTag json_of_ForumTag_inj).
Qed.

(** *** Calls in sequence *)

Section Composition.

Context {World : Type} `{rt : Runtime World}.

(** X13. Two calls in a row for a repository that has no tag yet: the first
    creates the tag, and when the remote side then serves the catalog it
    answered the update with, the second call finds the tag in its fetch.
    Both calls return the same id, and the two calls together send one
    PATCH only. *)
Theorem second_call_reuses_the_tag (c : Client)
  (repoName body body2 body3 : string)
  (channel updated refetched : ForumChannelResponse) (t : ForumTag)
  (w w1 w2 w3 : World) :
  url_Parse_error (channel_url (forumChannelID c)) = None ->
  RoundTrip (fetch_request c) w
    = (Ok {| StatusCode := 200; Response_Body := body |}, w1) ->
  Unmarshal_ForumChannelResponse body = Ok channel ->
  not_named repoName (AvailableTags channel) ->
  RoundTrip (update_request c (AvailableTags channel ++ [new_tag repoName])) w1
    = (Ok {| StatusCode := 200; Response_Body := body2 |}, w2) ->
  Unmarshal_ForumChannelResponse body2 = Ok updated ->
  first_named repoName (AvailableTags updated) t ->
  RoundTrip (fetch_request c) w2
    = (Ok {| StatusCode := 200; Response_Body := body3 |}, w3) ->
  Unmarshal_ForumChannelResponse body3 = Ok refetched ->
  AvailableTags refetched = AvailableTags updated ->
  IO_bind (GetOrCreateRepoTag c repoName)
    (fun first =>
       IO_bind (GetOrCreateRepoTag c repoName)
         (fun second => IO_ret (first, second))) w
  = (((ForumTag_ID t, None), (ForumTag_ID t, None)), w3,
     [Sent (fetch_request c); BodyRead;
      Sent (update_request c (AvailableTags channel ++ [new_tag repoName]));
      BodyRead;
      Sent (fetch_request c); BodyRead]).
Proof.
  intros Hurl Hfetch Hbody Habsent Hupdate Hbody2 Ht Hfetch2 Hbody3 Hsame.
  apply scan_tags_None in Habsent.
  assert (Hfirst : GetOrCreateRepoTag c repoName w
    = ((ForumTag_ID t, None), w2,
       [Sent (fetch_request c); BodyRead;
        Sent (update_request c (AvailableTags channel ++ [new_tag repoName]));
        BodyRead])).
  { rewrite GetOrCreateRepoTag_run by assumption. cbv zeta.
    rewrite Hfetch. expected_status.
    rewrite Hbody, Habsent, Hupdate. expected_status.
    rewrite Hbody2. now rewrite (scan_tags_first _ _ _ Ht). }
  assert (Hsecond : GetOrCreateRepoTag c repoName w2
    = ((ForumTag_ID t, None), w3, [Sent (fetch_request c); BodyRead])).
  { rewrite GetOrCreateRepoTag_run by assumption. cbv zeta.
    rewrite Hfetch2. expected_status. rewrite Hbody3, Hsame.
    now rewrite (scan_tags_first _ _ _ Ht). }
  unfold IO_bind at 1. rewrite Hfirst.
  unfold IO_bind at 1. rewrite Hsecond.
  reflexivity.
Qed.

End Composition.

(** *** The logger selection *)

(** X14. [Init] builds the logger for the service "github-discord-bridge"
    in every environment, and it selects by the exact name: the environment
    "production", and no other string, gets plain output at the info level;
    every other name gets pretty output at the debug level. *)
Theorem Init_selects_by_exact_name (Level : Type)
  (InfoLevel DebugLevel : Level) (Logger : Type)
  (NewZapMust : applogger.ZapOptions Level -> Logger) (environment : string) :
  exists opts : applogger.ZapOptions Level,
    applogger.Init Level InfoLevel DebugLevel Logger NewZapMust environment
    = NewZapMust opts
    /\ applogger.ServiceName Level opts = "github-discord-bridge"
    /\ (applogger.IsPretty Level opts = false <-> environment = "production")
    /\ (environment = "production" ->
        applogger.ZapOptions_Level Level opts = InfoLevel)
    /\ (environment <> "production" ->
        applogger.ZapOptions_Level Level opts = DebugLevel).
Proof.
  unfold applogger.Init.
  destruct (String.eqb_spec environment "production") as [Henv|Henv];
    eexists; (split; [reflexivity|]); cbn; repeat split;
    try tauto; try discriminate.
Qed.

(** *** More edges of the tag reconciliation *)

Section Edges.

Context {World : Type} `{rt : Runtime World}.

(** X15. The check after the update looks at names only.  When the answer
    to the update holds the new tag still without an id (as when the remote
    side echoes the list it was sent), [GetOrCreateRepoTag] returns the
    empty id and no error. *)
Theorem echoed_update_returns_empty_id (c : Client)
  (repoName body body2 : string) (channel updated : ForumChannelResponse)
  (w w1 w2 : World) :
  url_Parse_error (channel_url (forumChannelID c)) = None ->
  RoundTrip (fetch_request c) w
    = (Ok {| StatusCode := 200; Response_Body := body |}, w1) ->
  Unmarshal_ForumChannelResponse body = Ok channel ->
  not_named repoName (AvailableTags channel) ->
  RoundTrip (update_request c (AvailableTags channel ++ [new_tag repoName])) w1
    = (Ok {| StatusCode := 200; Response_Body := body2 |}, w2) ->
  Unmarshal_ForumChannelResponse body2 = Ok updated ->
  AvailableTags updated = AvailableTags channel ++ [new_tag repoName] ->
  value_of (GetOrCreateRepoTag c repoName w) = ("", None).
Proof.
  intros Hurl Hfetch Hbody Habsent Hupdate Hbody2 Hecho.
  assert (Hfirst : first_named repoName (AvailableTags updated)
                     (new_tag repoName)).
  { exists (AvailableTags channel), []. repeat split; assumption. }
  apply scan_tags_None in Habsent.
  rewrite GetOrCreateRepoTag_run by assumption. cbv zeta.
  rewrite Hfetch. expected_status.
  rewrite Hbody, Habsent, Hupdate. expected_status.
  rewrite Hbody2. now rewrite (scan_tags_first _ _ _ Hfirst).
Qed.

Lemma only_client_headers_json (c : Client) (key : string) :
  is_Some (json_headers c !! key) ->
  key = "Authorization" \/ key = "Content-Type".
Proof.
  unfold json_headers. intros [v Hv].
  destruct (decide ("Content-Type" = key)) as [<-|Hne]; [now right|].
  rewrite lookup_insert_ne in Hv by assumption.
  destruct (decide ("Authorization" = key)) as [<-|Hne']; [now left|].
  rewrite lookup_singleton_ne in Hv by assumption. discriminate.
Qed.

Lemma only_client_headers_fetch (c : Client) (key : string) :
  is_Some (Header (fetch_request c) !! key) ->
  key = "Authorization" \/ key = "Content-Type".
Proof.
  cbn [fetch_request Header]. intros [v Hv].
  destruct (decide ("Authorization" = key)) as [<-|Hne]; [now left|].
  rewrite lookup_singleton_ne in Hv by assumption. discriminate.
Qed.

(** X16. The client sets no header of its own besides the two: every
    header name of every request sent by any operation is [Authorization] or
    [Content-Type]. *)
Theorem no_other_header_is_set (c : Client)
  (repoName title threadID : string) (message : ThreadMessage)
  (tagIDs : list string) (w : World) (req : Request) (key : string) :
  req ∈ sent_of (GetOrCreateRepoTag c repoName w)
        ++ sent_of (CreateThread c title message tagIDs w)
        ++ sent_of (PostMessage c threadID message w)
        ++ sent_of (ArchiveThread c threadID w) ->
  is_Some (Header req !! key) ->
  key = "Authorization" \/ key = "Content-Type".
Proof.
  intros Hin Hkey.
  repeat (apply elem_of_app in Hin as [Hin|Hin]).
  - destruct (GetOrCreateRepoTag_sends c repoName w)
      as [H|[H|[tags H]]]; rewrite H in Hin.
    + now apply elem_of_nil in Hin.
    + apply list_elem_of_singleton in Hin. subst req.
      now apply (only_client_headers_fetch c).
    + apply elem_of_cons in Hin as [->|Hin].
      * now apply (only_client_headers_fetch c).
      * apply list_elem_of_singleton in Hin. subst req.
        now apply (only_client_headers_json c).
  - destruct (CreateThread_sends c title message tagIDs w) as [H|H];
      rewrite H in Hin.
    + now apply elem_of_nil in Hin.
    + apply list_elem_of_singleton in Hin. subst req.
      now apply (only_client_headers_json c).
  - destruct (PostMessage_sends c threadID message w) as [H|H];
      rewrite H in Hin.
    + now apply elem_of_nil in Hin.
    + apply list_elem_of_singleton in Hin. subst req.
      now apply (only_client_headers_json c).
  - destruct (ArchiveThread_sends c threadID w) as [H|H]; rewrite H in Hin.
    + now apply elem_of_nil in Hin.
    + apply list_elem_of_singleton in Hin. subst req.
      now apply (only_client_headers_json c).
Qed.

End Edges.

(** ** More scenarios on the scripted remote side *)

(** A thread creation with one tag id, answered 500: the one POST went out,
    and its document lists the tag. *)
Lemma CreateThread_sends_one_post_scenario :
  exists req : Request,
    sent_of (CreateThread Mock.client "Issue #2"
               {| Content := "body"; Embeds := [] |} ["42"]
               [Mock.reply 500 "oops"])
    = [req]
    /\ Method req = "POST"
    /\ member "applied_tags"
         (members_of
            (json_of_CreateThreadRequest
               {| CreateThreadRequest_Name := "Issue #2";
                  CreateThreadRequest_Message :=
                    {| Content := "body"; Embeds := [] |};
                  AppliedTags := ["42"] |}))
       = Some (JArr [JStr "42"]).
Proof.
  destruct (CreateThread_sends_one_post (rt := Mock.runtime) Mock.client
              "Issue #2" {| Content := "body"; Embeds := [] |} ["42"]
              [Mock.reply 500 "oops"] eq_refl)
    as (req & Hsent & Hmethod & _ & _ & Htags).
  exists req. split; [exact Hsent|]. split; [exact Hmethod | exact Htags].
Defined.

(** The empty message is posted like any other. *)
Lemma PostMessage_sends_one_post_scenario :
  exists req : Request,
    sent_of (PostMessage Mock.client "999" {| Content := ""; Embeds := [] |}
               [Mock.reply 400 "Cannot send an empty message"])
    = [req]
    /\ Method req = "POST"
    /\ Body req = Some "{}".
Proof.
  destruct (PostMessage_sends_one_post (rt := Mock.runtime) Mock.client "999"
              {| Content := ""; Embeds := [] |}
              [Mock.reply 400 "Cannot send an empty message"] eq_refl)
    as (req & Hsent & Hmethod & _ & Hbody).
  exists req. split; [exact Hsent|]. split; [exact Hmethod | exact Hbody].
Defined.

(** The connection times out while a thread is archived. *)
Lemma transport_failure_is_reported_scenario :
  ArchiveThread Mock.client "999" [Err "context deadline exceeded"]
  = (Some "failed to send request: context deadline exceeded", [],
     [Sent (archive_request Mock.client "999")]).
Proof.
  apply (proj2 (proj2 (proj2
           (transport_failure_is_reported (rt := Mock.runtime) Mock.client
              "repoA" "Issue #1" "999" {| Content := ""; Embeds := [] |} []
              "context deadline exceeded"
              [Err "context deadline exceeded"] [])))).
  - reflexivity.
  - reflexivity.
Defined.

(** The update is refused with status 403 after a good fetch. *)
Lemma failed_update_returns_no_id_scenario :
  exists err : error,
    value_of (GetOrCreateRepoTag Mock.client "repoB"
                [Mock.reply 200 (Mock.channel_text []);
                 Mock.reply 403 "Missing Permissions"])
    = ("", Some err)
    /\ sent_of (GetOrCreateRepoTag Mock.client "repoB"
                  [Mock.reply 200 (Mock.channel_text []);
                   Mock.reply 403 "Missing Permissions"])
       = [fetch_request Mock.client;
          update_request Mock.client [new_tag "repoB"]].
Proof.
  destruct (failed_update_returns_no_id (rt := Mock.runtime) Mock.client
              "repoB" (Mock.channel_text []) {| AvailableTags := [] |}
              (Mock.reply 403 "Missing Permissions")
              [Mock.reply 200 (Mock.channel_text []);
               Mock.reply 403 "Missing Permissions"]
              [Mock.reply 403 "Missing Permissions"] [])
    as (err & Hvalue & _ & Hsent & _).
  - reflexivity.
  - reflexivity.
  - reflexivity.
  - constructor.
  - reflexivity.
  - left. discriminate.
  - exists err. split; [exact Hvalue | exact Hsent].
Defined.

(** An empty catalog: the update is sent, once. *)
Lemma update_sent_exactly_when_absent_scenario :
  count_method "PATCH"
    (sent_of (GetOrCreateRepoTag Mock.client "repoB"
                [Mock.reply 200 (Mock.channel_text [])]))
  = 1%nat.
Proof.
  apply (proj1 (update_sent_exactly_when_absent (rt := Mock.runtime)
                  Mock.client "repoB" (Mock.reply 200 (Mock.channel_text []))
                  [Mock.reply 200 (Mock.channel_text [])] []
                  eq_refl eq_refl)).
  exists {| StatusCode := 200; Response_Body := Mock.channel_text [] |},
    {| AvailableTags := [] |}.
  repeat split. constructor.
Defined.

(** The fetch is answered 500: the error comes with the empty id. *)
Lemma error_comes_with_empty_id_scenario :
  value_of (GetOrCreateRepoTag Mock.client "repoA" [Mock.reply 500 "oops"])
  = ("", Some "discord API error (status 500): oops")
  /\ "" = "".
Proof.
  split; [reflexivity|].
  apply (proj1 (error_comes_with_empty_id (rt := Mock.runtime) Mock.client
                  "repoA" "Issue #1" {| Content := ""; Embeds := [] |} []
                  [Mock.reply 500 "oops"] ""
                  "discord API error (status 500): oops")).
  reflexivity.
Defined.

(** The id returned for repoA is the id of a tag named repoA. *)
Lemma returned_id_belongs_to_the_name_scenario :
  exists t : ForumTag, ForumTag_Name t = "repoA" /\ ForumTag_ID t = "1".
Proof.
  destruct (returned_id_belongs_to_the_name (rt := Mock.runtime) Mock.client
              "repoA" "1"
              [Mock.reply 200 (Mock.channel_text [Mock.tag "1" "repoA"])]
              eq_refl)
    as (req & resp & w0 & w1 & channel & t & _ & _ & _ & _ & Hfirst & Hid).
  exists t. split; [|exact Hid].
  destruct Hfirst as (pre & post & _ & _ & Hname). exact Hname.
Defined.

(** A 201 answer that is no JSON document. *)
Lemma CreateThread_undecodable_answer_scenario :
  CreateThread Mock.client "Issue #1" {| Content := "body"; Embeds := [] |} []
    [Mock.reply 201 "<html>"]
  = (("", Some "failed to parse response: unexpected end of JSON input"), [],
     [Sent (create_request Mock.client "Issue #1"
              {| Content := "body"; Embeds := [] |} []);
      BodyRead]).
Proof.
  apply (CreateThread_undecodable_answer (rt := Mock.runtime) Mock.client
           "Issue #1" {| Content := "body"; Embeds := [] |} []
           {| StatusCode := 201; Response_Body := "<html>" |}
           "unexpected end of JSON input" [Mock.reply 201 "<html>"] []).
  - reflexivity.
  - reflexivity.
  - reflexivity.
  - reflexivity.
Defined.

(** A thread id with a line feed in it: nothing is sent. *)
Lemma request_sent_exactly_when_url_accepted_scenario :
  ArchiveThread (rt := Strict.runtime) Mock.client Strict.broken_id
    [Mock.reply 200 "unused"]
  = (Some "failed to create request: net/url: invalid control character in URL",
     [Mock.reply 200 "unused"], []).
Proof.
  exact (proj2 (proj2 (proj2
           (request_sent_exactly_when_url_accepted (rt := Strict.runtime)
              Mock.client "repoA" "Issue #1" Strict.broken_id
              {| Content := ""; Embeds := [] |} []
              [Mock.reply 200 "unused"])))).
Defined.

(** The catalog holds repoA; the update for repoB carries both, with
    distinct names. *)
Lemma update_keeps_names_distinct_scenario :
  exists tags : list ForumTag,
    update_request Mock.client [Mock.tag "1" "repoA"; new_tag "repoB"]
    = update_request Mock.client tags
    /\ tags = [Mock.tag "1" "repoA"; new_tag "repoB"]
    /\ NoDup (map ForumTag_Name tags).
Proof.
  apply (update_keeps_names_distinct (rt := Mock.runtime) Mock.client "repoB"
           (Mock.channel_text [Mock.tag "1" "repoA"])
           {| AvailableTags := [Mock.tag "1" "repoA"] |}
           [Mock.reply 200 (Mock.channel_text [Mock.tag "1" "repoA"])] []).
  - reflexivity.
  - reflexivity.
  - reflexivity.
  - apply NoDup_singleton.
  - rewrite (GetOrCreateRepoTag_sends_update (rt := Mock.runtime) Mock.client
               "repoB"
               {| StatusCode := 200;
                  Response_Body :=
                    Mock.channel_text [Mock.tag "1" "repoA"] |}
               {| AvailableTags := [Mock.tag "1" "repoA"] |}
               [Mock.reply 200 (Mock.channel_text [Mock.tag "1" "repoA"])] []
               eq_refl eq_refl eq_refl eq_refl eq_refl).
    apply list_elem_of_further, list_elem_of_here.
  - reflexivity.
Defined.

(** The tag of repoB is created by the first call and found by the
    second. *)
Lemma second_call_reuses_the_tag_scenario :
  IO_bind (GetOrCreateRepoTag Mock.client "repoB")
    (fun first =>
       IO_bind (GetOrCreateRepoTag Mock.client "repoB")
         (fun second => IO_ret (first, second)))
    [Mock.reply 200 (Mock.channel_text []);
     Mock.reply 200 (Mock.channel_text [Mock.tag "42" "repoB"]);
     Mock.reply 200 (Mock.channel_text [Mock.tag "42" "repoB"])]
  = ((("42", None), ("42", None)), [],
     [Sent (fetch_request Mock.client); BodyRead;
      Sent (update_request Mock.client [new_tag "repoB"]); BodyRead;
      Sent (fetch_request Mock.client); BodyRead]).
Proof.
  apply (second_call_reuses_the_tag (rt := Mock.runtime) Mock.client "repoB"
           (Mock.channel_text [])
           (Mock.channel_text [Mock.tag "42" "repoB"])
           (Mock.channel_text [Mock.tag "42" "repoB"])
           {| AvailableTags := [] |}
           {| AvailableTags := [Mock.tag "42" "repoB"] |}
           {| AvailableTags := [Mock.tag "42" "repoB"] |}
           (Mock.tag "42" "repoB")
           [Mock.reply 200 (Mock.channel_text []);
            Mock.reply 200 (Mock.channel_text [Mock.tag "42" "repoB"]);
            Mock.reply 200 (Mock.channel_text [Mock.tag "42" "repoB"])]
           [Mock.reply 200 (Mock.channel_text [Mock.tag "42" "repoB"]);
            Mock.reply 200 (Mock.channel_text [Mock.tag "42" "repoB"])]
           [Mock.reply 200 (Mock.channel_text [Mock.tag "42" "repoB"])]
           []).
  - reflexivity.
  - reflexivity.
  - reflexivity.
  - constructor.
  - reflexivity.
  - reflexivity.
  - exists [], []. repeat split. constructor.
  - reflexivity.
  - reflexivity.
  - reflexivity.
Defined.

(** The remote side echoes the list it was sent: the empty id comes back
    without an error. *)
Lemma echoed_update_returns_empty_id_scenario :
  value_of (GetOrCreateRepoTag (rt := Strict.runtime) Mock.client "repoB"
              [Mock.reply 200 (Mock.channel_text []);
               Mock.reply 200 (Mock.channel_text [Mock.tag "" "repoB"])])
  = ("", None).
Proof.
  apply (echoed_update_returns_empty_id (rt := Strict.runtime) Mock.client
           "repoB" (Mock.channel_text [])
           (Mock.channel_text [Mock.tag "" "repoB"])
           {| AvailableTags := [] |}
           {| AvailableTags := [Mock.tag "" "repoB"] |}
           [Mock.reply 200 (Mock.channel_text []);
            Mock.reply 200 (Mock.channel_text [Mock.tag "" "repoB"])]
           [Mock.reply 200 (Mock.channel_text [Mock.tag "" "repoB"])] []).
  - reflexivity.
  - reflexivity.
  - reflexivity.
  - constructor.
  - reflexivity.
  - reflexivity.
  - reflexivity.
Defined.

(** The archive request carries a [Content-Type], one of the two names. *)
Lemma no_other_header_is_set_scenario :
  "Content-Type" = "Authorization" \/ "Content-Type" = "Content-Type".
Proof.
  apply (no_other_header_is_set (rt := Mock.runtime) Mock.client "repoA"
           "Issue #1" "999" {| Content := "body"; Embeds := [] |} []
           [Mock.reply 200 "ok"] (archive_request Mock.client "999")
           "Content-Type").
  - apply elem_of_app; right. apply elem_of_app; right.
    apply elem_of_app; right. apply list_elem_of_here.
  - exists ["application/json"]. apply json_headers_Content_Type.
Defined.

(** ** Where the client differs from the specification's wording *)

(** C2, as worded, at an empty catalog and the repository repoB.  The
    specification has the update carry [{name: repoB}], without an id.  The
    client sends the GET and then a PATCH whose body is
    [{"available_tags":[{"id":"","name":"repoB"}]}]: the new tag has an id
    member, holding the empty string.  Neither the document nor its text is
    the one the specification describes. *)
Lemma update_body_has_empty_id_member :
  sent_of (GetOrCreateRepoTag Mock.client "repoB"
             [Mock.reply 200 (Mock.channel_text []);
              Mock.reply 200 (Mock.channel_text [Mock.tag "42" "repoB"])])
  = [fetch_request Mock.client;
     update_request Mock.client ([] ++ [new_tag "repoB"])]
  /\ Body (update_request (rt := Mock.runtime) Mock.client
             ([] ++ [new_tag "repoB"]))
     = Some ("{" +:+ dquote +:+ "available_tags" +:+ dquote +:+ ":[{"
             +:+ dquote +:+ "id" +:+ dquote +:+ ":" +:+ dquote +:+ dquote
             +:+ "," +:+ dquote +:+ "name" +:+ dquote +:+ ":"
             +:+ dquote +:+ "repoB" +:+ dquote +:+ "}]}")
  /\ Body (update_request (rt := Mock.runtime) Mock.client
             ([] ++ [new_tag "repoB"]))
     <> Some (render Mock.quote (update_document_as_specified [] "repoB"))
  /\ json_of_PatchBody {| PatchBody_AvailableTags := [] ++ [new_tag "repoB"] |}
     <> update_document_as_specified [] "repoB"
  /\ member "id" (members_of (json_of_ForumTag (new_tag "repoB")))
     = Some (JStr "")
  /\ member "id" (members_of (JObj [("name", JStr "repoB")])) = None.
Proof.
  split.
  { apply (GetOrCreateRepoTag_sends_update (rt := Mock.runtime) Mock.client
             "repoB"
             {| StatusCode := 200; Response_Body := Mock.channel_text [] |}
             {| AvailableTags := [] |}
             [Mock.reply 200 (Mock.channel_text []);
              Mock.reply 200 (Mock.channel_text [Mock.tag "42" "repoB"])]
             [Mock.reply 200 (Mock.channel_text [Mock.tag "42" "repoB"])]);
      reflexivity. }
  split; [reflexivity|].
  split; [intros H; vm_compute in H; discriminate H|].
  split; [intros H; discriminate H|].
  split; reflexivity.
Qed.
